(** * QualScore readers: the pepXML and mzML templates

    A shallow embedding of [scripts/template_pepXMLreader.py] and
    [scripts/template_mzML_reader.py], and the properties of the two readers.

    The records the pyteomics readers yield are nested Python dictionaries and
    lists; they are modelled as values of [pyval], the subscripting
    [v[k]] as [py_getitem], which raises what Python raises.  A Python [str]
    is a [string] of code points below 256, on which the class [\d] of [re]
    is exactly [0-9].  What is written on the diagnostic stream ([eprint]) is
    not part of the model, except for the expressions evaluated to build it,
    which can raise.  The clock readings of [timeit.default_timer] and the
    record sequence a pyteomics reader yields are inputs of the model. *)

From Stdlib Require Import ZArith String Ascii List Lia.
From Stdlib Require Import Floats.PrimFloat Floats.FloatOps Floats.SpecFloat.
From stdpp Require Import gmap strings list.

Set Warnings "-register-all".

Local Open Scope string_scope.
Local Open Scope list_scope.
Local Open Scope Z_scope.

(** ** Python values, exceptions and built-ins *)

Module Py.

Inductive exn :=
| KeyError (k : string)
| IndexError
| TypeError
| ValueError
| OverflowError
| ZeroDivisionError
| OSError
| SystemExit.

Inductive result (A : Type) :=
| Ok (a : A)
| Raise (e : exn).
Arguments Ok {A} a.
Arguments Raise {A} e.

#[global] Instance result_ret : MRet result := fun A a => Ok a.

#[global] Instance result_bind : MBind result := fun A B f r =>
  match r with
  | Ok a => f a
  | Raise e => Raise e
  end.

Inductive pyval :=
| PyNone
| PyInt (z : Z)
| PyFloat (f : float)
| PyStr (s : string)
| PyList (l : list pyval)
| PyDict (d : gmap string pyval).

(** A subscript is a string key or an integer index. *)
Inductive key :=
| KStr (s : string)
| KInt (i : Z).

(** [l[i]] on a list, negative indices counting from the end. *)
Definition list_index {A} (l : list A) (i : Z) : result A :=
  let n := Z.of_nat (length l) in
  let j := if i <? 0 then i + n else i in
  if (j <? 0) || (n <=? j) then Raise IndexError
  else match l !! Z.to_nat j with
       | Some a => Ok a
       | None => Raise IndexError
       end.

(** [v[k]]: the keys of the dictionaries are strings. *)
Definition py_getitem (v : pyval) (k : key) : result pyval :=
  match v, k with
  | PyDict d, KStr s =>
      match d !! s with
      | Some x => Ok x
      | None => Raise (KeyError s)
      end
  | PyDict _, KInt _ => Raise (KeyError "")
  | PyList l, KInt i => list_index l i
  | PyList _, KStr _ => Raise TypeError
  | PyStr s, KInt i =>
      c ← list_index (list_ascii_of_string s) i;
      Ok (PyStr (String c EmptyString))
  | PyStr _, KStr _ => Raise TypeError
  | _, _ => Raise TypeError
  end.

(** [v[k1][k2]...[kn]], evaluated left to right. *)
Fixpoint py_path (v : pyval) (ks : list key) : result pyval :=
  match ks with
  | [] => Ok v
  | k :: ks' => v' ← py_getitem v k; py_path v' ks'
  end.

(** [d[k]] on a record, which is a dictionary. *)
Definition dict_getitem (d : gmap string pyval) (k : string) : result pyval :=
  py_getitem (PyDict d) (KStr k).

(** [k in d]. *)
Definition dict_contains (k : string) (d : gmap string pyval) : bool :=
  bool_decide (is_Some (d !! k)).

(** [for x in v]: the items a [for] loop visits.  The keys of a dictionary
    come in the order of [map_to_list]; the loop of the reader subscripts
    each item with a string, which a key, being a [str], refuses whatever
    the order. *)
Definition py_iter (v : pyval) : result (list pyval) :=
  match v with
  | PyList l => Ok l
  | PyDict d => Ok (map (fun kv => PyStr (fst kv)) (map_to_list d))
  | PyStr s =>
      Ok (map (fun c => PyStr (String c EmptyString)) (list_ascii_of_string s))
  | _ => Raise TypeError
  end.

(** [len(v)]. *)
Definition py_len (v : pyval) : result Z :=
  match v with
  | PyList l => Ok (Z.of_nat (length l))
  | PyDict d => Ok (Z.of_nat (size d))
  | PyStr s => Ok (Z.of_nat (String.length s))
  | _ => Raise TypeError
  end.

(** [s.endswith(suffix)]. *)
Definition endswith (s suffix : string) : bool :=
  let n := String.length s in
  let k := String.length suffix in
  (k <=? n)%nat && String.eqb (String.substring (n - k) k s) suffix.

(** [v == 'text']. *)
Definition eq_str (v : pyval) (s : string) : bool :=
  match v with
  | PyStr s' => String.eqb s' s
  | _ => false
  end.

(** [v == n] for an integer literal [n]. *)
Definition eq_int (v : pyval) (n : Z) : bool :=
  match v with
  | PyInt z => z =? n
  | PyFloat f =>
      match Prim2SF f with
      | S754_zero _ => n =? 0
      | S754_finite s m e =>
          (0 <=? e) && ((if s then - (Z.pos m * 2 ^ e) else Z.pos m * 2 ^ e) =? n)
          || (e <? 0) && (Z.pos m mod 2 ^ (- e) =? 0)
             && ((if s then - (Z.pos m / 2 ^ (- e)) else Z.pos m / 2 ^ (- e)) =? n)
      | _ => false
      end
  | _ => false
  end.

(** *** Floats *)

Definition float_is_zero (f : float) : bool :=
  match Prim2SF f with
  | S754_zero _ => true
  | _ => false
  end.

(** [float(n)], as the true division of an [int] by a [float] does it:
    rounded to the nearest double, [OverflowError] beyond the range. *)
Definition float_of_int (n : Z) : result float :=
  match binary_normalize 53 1024 n 0 false with
  | S754_infinity _ => Raise OverflowError
  | sf => Ok (SF2Prim sf)
  end.

(** [n / d] with [n] an [int] and [d] a [float]. *)
Definition truediv_int_float (n : Z) (d : float) : result float :=
  a ← float_of_int n;
  if float_is_zero d then Raise ZeroDivisionError else Ok (PrimFloat.div a d).

(** [int(f)] on a float: truncation towards zero. *)
Definition int_of_float (f : float) : result Z :=
  match Prim2SF f with
  | S754_zero _ => Ok 0
  | S754_finite s m e =>
      let a := if 0 <=? e then Z.pos m * 2 ^ e else Z.pos m / 2 ^ (- e) in
      Ok (if s then - a else a)
  | S754_infinity _ => Raise OverflowError
  | S754_nan => Raise ValueError
  end.

(** *** [int(s)] on a string *)

Definition is_digit (c : ascii) : bool :=
  let n := nat_of_ascii c in (48 <=? n)%nat && (n <=? 57)%nat.

Definition digit_value (c : ascii) : Z := Z.of_nat (nat_of_ascii c) - 48.

(** The whitespace that [int()] strips, on the code points below 256: the
    ASCII whitespace (tab to carriage return, and the space) and the two
    spaces above 127, U+0085 and U+00A0.  The separators U+001C to U+001F,
    which [str.isspace] accepts, are not stripped. *)
Definition is_space (c : ascii) : bool :=
  let n := nat_of_ascii c in
  (9 <=? n)%nat && (n <=? 13)%nat || (n =? 32)%nat
  || (n =? 133)%nat || (n =? 160)%nat.

Fixpoint lstrip (s : list ascii) : list ascii :=
  match s with
  | c :: s' => if is_space c then lstrip s' else s
  | [] => []
  end.

Definition strip (s : list ascii) : list ascii :=
  rev (lstrip (rev (lstrip s))).

(** Digits with single underscores between them; [acc] is the value read
    so far, [n] the number of digits read, [us] whether the previous
    character was an underscore. *)
Fixpoint digits (s : list ascii) (acc : Z) (n : nat) (us : bool)
  : option (Z * nat) :=
  match s with
  | [] => if us then None else Some (acc, n)
  | c :: s' =>
      if is_digit c then digits s' (10 * acc + digit_value c) (S n) false
      else if Ascii.eqb c "_" then
             if us then None else digits s' acc n true
           else None
  end.

(** The limit [sys.get_int_max_str_digits()] of CPython, at its default. *)
Definition int_max_str_digits : nat := 4300.

Definition unsigned_of_string (s : list ascii) : result Z :=
  match s with
  | c :: _ =>
      if is_digit c then
        match digits s 0 0 false with
        | Some (z, n) =>
            if (int_max_str_digits <? n)%nat then Raise ValueError else Ok z
        | None => Raise ValueError
        end
      else Raise ValueError
  | [] => Raise ValueError
  end.

Definition int_of_string (s : string) : result Z :=
  match strip (list_ascii_of_string s) with
  | c :: s' =>
      if Ascii.eqb c "-" then z ← unsigned_of_string s'; Ok (- z)
      else if Ascii.eqb c "+" then unsigned_of_string s'
           else unsigned_of_string (c :: s')
  | [] => Raise ValueError
  end.

(** [int(v)]. *)
Definition py_int (v : pyval) : result Z :=
  match v with
  | PyInt z => Ok z
  | PyFloat f => int_of_float f
  | PyStr s => int_of_string s
  | _ => Raise TypeError
  end.

(** *** Effects

    The observable actions of a run, in order: what is printed on the
    standard output, the input files opened, and the table written. *)

Inductive line :=
| ErrChargeMismatch (spectrum_name : string) (charge : pyval)
| ErrParseName (spectrum_name : string)
| ErrNotAFile (file : string)
| Summary (n : Z) (file : string) (sec : Z) (per_sec : float).

Record tsv := {
  tsv_filename : string;
  tsv_columns : list string;
  tsv_rows : list (list pyval)
}.

Inductive event :=
| Stdout (l : line)
| Open (file : string) (gz : bool)
| Close (file : string)
| ToCsv (t : tsv).

(** A computation: the events it produced, and its value or the exception
    that ended it. *)
Definition io (A : Type) : Type := list event * result A.

#[global] Instance io_ret : MRet io := fun A a => ([], Ok a).

#[global] Instance io_bind : MBind io := fun A B f m =>
  match m with
  | (tr, Ok a) => let '(tr', r) := f a in (tr ++ tr', r)
  | (tr, Raise e) => (tr, Raise e)
  end.

Definition emit (e : event) : io unit := ([e], Ok tt).
Definition lift {A} (r : result A) : io A := ([], r).
Definition raise {A} (e : exn) : io A := lift (Raise e).

(** [for x in xs: st = body st x], stopping at the first exception. *)
Fixpoint for_each {A S} (body : S -> A -> io S) (xs : list A) (st : S) : io S :=
  match xs with
  | [] => mret st
  | x :: xs' => st' ← body st x; for_each body xs' st'
  end.

(** [stats[k]] on a dictionary of counters. *)
Definition stats_get (stats : gmap string Z) (k : string) : result Z :=
  match stats !! k with
  | Some n => Ok n
  | None => Raise (KeyError k)
  end.

(** [stats[k] += 1]. *)
Definition incr (stats : gmap string Z) (k : string) : result (gmap string Z) :=
  match stats !! k with
  | Some n => Ok (<[k := n + 1]> stats)
  | None => Raise (KeyError k)
  end.

Definition trace {A} (m : io A) : list event := fst m.
Definition outcome {A} (m : io A) : result A := snd m.

End Py.

Import Py.

(** ** Regular expressions: the fragment of [re] the reader uses

    A backtracking matcher in continuation-passing style, as [re] runs a
    pattern: a greedy [+] takes as many characters as it can and gives them
    back one by one when the rest of the pattern fails.  The groups are
    collected as they close, which is their numbering in a pattern whose
    groups are not nested. *)

Module Re.

Inductive atom :=
| Chr (c : ascii)   (* an escaped literal character, such as [\.] *)
| AnyChar           (* [.]: any character but a newline *)
| Digit.            (* [\d] *)

Inductive regex :=
| Atom (a : atom)
| Plus (a : atom)          (* [a+], greedy *)
| Group (r : regex)        (* [(r)], capturing *)
| Seq (r1 r2 : regex)
| Dollar.                  (* [$] *)

Definition newline : ascii := "010"%char.

Definition atom_ok (a : atom) (c : ascii) : bool :=
  match a with
  | Chr c' => Ascii.eqb c c'
  | AnyChar => negb (Ascii.eqb c newline)
  | Digit => is_digit c
  end.

(** [$] holds at the end of the string and just before a newline that is
    the last character of the string. *)
Definition at_end (s : string) : bool :=
  match s with
  | EmptyString => true
  | String c EmptyString => Ascii.eqb c newline
  | _ => false
  end.

(** Zero or more characters of the class [p], longest first; [k] receives
    the characters taken and the rest of the input. *)
Fixpoint star {A} (p : ascii -> bool) (s : string)
  (k : string -> string -> option A) : option A :=
  match s with
  | String c s' =>
      if p c then
        match star p s' (fun m rest => k (String c m) rest) with
        | Some r => Some r
        | None => k EmptyString s
        end
      else k EmptyString s
  | EmptyString => k EmptyString EmptyString
  end.

(** [run r s gs k]: match [r] at the head of [s]; [gs] are the groups closed
    so far, and [k] receives the text matched, the rest of the input and the
    groups. *)
Fixpoint run {A} (r : regex) (s : string) (gs : list string)
  (k : string -> string -> list string -> option A) : option A :=
  match r with
  | Atom a =>
      match s with
      | String c s' =>
          if atom_ok a c then k (String c EmptyString) s' gs else None
      | EmptyString => None
      end
  | Plus a =>
      match s with
      | String c s' =>
          if atom_ok a c
          then star (atom_ok a) s' (fun m rest => k (String c m) rest gs)
          else None
      | EmptyString => None
      end
  | Group r' => run r' s gs (fun m rest gs' => k m rest (gs' ++ [m]))
  | Seq r1 r2 =>
      run r1 s gs (fun m1 rest1 gs1 =>
        run r2 rest1 gs1 (fun m2 rest2 gs2 => k (m1 +:+ m2) rest2 gs2))
  | Dollar => if at_end s then k EmptyString s gs else None
  end.

(** [re.match(r, s)]: anchored at the start of [s]; the result holds the
    groups of the match found. *)
Definition re_match (r : regex) (s : string) : option (list string) :=
  run r s [] (fun _ _ gs => Some gs).

(** [m.group(n)] for [n >= 1]. *)
Definition group (m : list string) (n : nat) : result string :=
  match n with
  | O => Raise IndexError
  | S i => match m !! i with
           | Some g => Ok g
           | None => Raise IndexError
           end
  end.

End Re.

Import Re.

(** ** [template_pepXMLreader.py] *)

Module PepXml.

(** [r"(.+)\.(\d+)\.(\d+)\.(\d+)$"] *)
Definition spectrum_name_re : regex :=
  Seq (Group (Plus AnyChar))
    (Seq (Atom (Chr "."))
      (Seq (Group (Plus Digit))
        (Seq (Atom (Chr "."))
          (Seq (Group (Plus Digit))
            (Seq (Atom (Chr "."))
              (Seq (Group (Plus Digit)) Dollar)))))).

(** [re.search('\.gz$', file)]: a match somewhere in [file]. *)
Definition gz_re : regex :=
  Seq (Atom (Chr ".")) (Seq (Atom (Chr "g")) (Seq (Atom (Chr "z")) Dollar)).

Fixpoint re_search (r : regex) (s : string) : option (list string) :=
  match re_match r s with
  | Some m => Some m
  | None => match s with
            | String _ s' => re_search r s'
            | EmptyString => None
            end
  end.

(** The variables of [read_psms] that live across the iterations of its
    loop. *)
Record state := {
  rows : list (list pyval);
  psm_number : Z;
  stats : gmap string Z
}.

Definition column_name_list : list string := ["scan_number"; "probability"].

(** One iteration of the loop over the analysis results; the pair holds
    [peptideprophet_probability] and [iprophet_probability]. *)
Definition analysis_step (acc : pyval * pyval) (analysis_result : pyval)
  : result (pyval * pyval) :=
  let '(peptideprophet_probability, iprophet_probability) := acc in
  a ← py_getitem analysis_result (KStr "analysis");
  peptideprophet_probability ←
    (if eq_str a "peptideprophet"
     then py_path analysis_result [KStr "peptideprophet_result"; KStr "probability"]
     else Ok peptideprophet_probability);
  a' ← py_getitem analysis_result (KStr "analysis");
  iprophet_probability ←
    (if eq_str a' "interprophet"
     then py_path analysis_result [KStr "interprophet_result"; KStr "probability"]
     else Ok iprophet_probability);
  Ok (peptideprophet_probability, iprophet_probability).

Fixpoint analysis_loop (results : list pyval) (acc : pyval * pyval)
  : result (pyval * pyval) :=
  match results with
  | [] => Ok acc
  | analysis_result :: rest =>
      acc' ← analysis_step acc analysis_result; analysis_loop rest acc'
  end.

(** [re.match(pattern, spectrum_name)]: only a [str] can be matched. *)
Definition match_spectrum_name (spectrum_name : pyval)
  : result (string * option (list string)) :=
  match spectrum_name with
  | PyStr s => Ok (s, re_match spectrum_name_re s)
  | _ => Raise TypeError
  end.

(** Name decomposition and charge check of one PSM: the scan number, or
    the error line and [exit()]. *)
Definition decode_spectrum_name (psm : gmap string pyval) : io string :=
  sequence ← lift (py_path (PyDict psm) [KStr "search_hit"; KInt 0; KStr "peptide"]);
  charge ← lift (dict_getitem psm "assumed_charge");
  spectrum_name ← lift (dict_getitem psm "spectrum");
  '(name, m) ← lift (match_spectrum_name spectrum_name);
  match m with
  | Some m =>
      msrun_name ← lift (group m 1);
      scan_number ← lift (group m 2);
      c ← lift (py_int charge);
      g4 ← lift (group m 4);
      c4 ← lift (py_int (PyStr g4));
      if negb (c =? c4) then
        emit (Stdout (ErrChargeMismatch name charge));; raise SystemExit
      else mret scan_number
  | None =>
      emit (Stdout (ErrParseName name));; raise SystemExit
  end.

(** The body of the loop over the PSMs. *)
Definition psm_body (st : state) (psm : gmap string pyval) : io state :=
  let peptideprophet_probability := PyNone in
  let iprophet_probability := PyNone in
  let keep := true in
  scan_number ← decode_spectrum_name psm;
  results ← lift (py_path (PyDict psm)
                    [KStr "search_hit"; KInt 0; KStr "analysis_result"]);
  items ← lift (py_iter results);
  '(peptideprophet_probability, iprophet_probability) ←
    lift (analysis_loop items (peptideprophet_probability, iprophet_probability));
  let st :=
    if keep then
      let row := [PyStr scan_number; peptideprophet_probability] in
      {| rows := rows st ++ [row];
         psm_number := psm_number st + 1;
         stats := stats st |}
    else st in
  stats' ← lift (incr (stats st) "n_psms");
  mret {| rows := rows st; psm_number := psm_number st; stats := stats' |}.

Definition initial_state : state :=
  {| rows := []; psm_number := 0; stats := {["n_psms" := 0]} |}.

(** [PepXmlReader(pepxml_file).read_psms()]; [reader] is the sequence of
    PSMs that [pepxml.read(infile)] yields, [t0] and [t1] the two readings
    of the clock. *)
Definition read_psms (pepxml_file : string) (reader : list (gmap string pyval))
  (t0 t1 : float) : io unit :=
  emit (Open pepxml_file (bool_decide (is_Some (re_search gz_re pepxml_file))));;
  st ← for_each psm_body reader initial_state;
  emit (Close pepxml_file);;
  n ← lift (stats_get (stats st) "n_psms");
  per_sec ← lift (truediv_int_float n (PrimFloat.sub t1 t0));
  let table := (column_name_list, rows st) in
  let output_filename := pepxml_file +:+ ".tsv" in
  emit (ToCsv {| tsv_filename := output_filename;
                 tsv_columns := fst table;
                 tsv_rows := snd table |}).

(** [main()] of the identification reader, past the parsing of the command
    line: [fs filename] is the sequence of PSMs of a regular file and [None]
    for anything else. *)
Definition main (fs : string -> option (list (gmap string pyval)))
  (t0 t1 : float) (filename : string) : io unit :=
  match fs filename with
  | None => emit (Stdout (ErrNotAFile filename))
  | Some reader => read_psms filename reader t0 t1
  end.

End PepXml.

(** ** [template_mzML_reader.py] *)

Module MzML.

(** What the loop extracts from a spectrum of level 2. *)
Record extraction := {
  precursor_mz : pyval;
  charge_state : pyval;
  peaklist : gmap string pyval
}.

(** [['precursorList']['precursor'][0]['selectedIonList']['selectedIon'][0]] *)
Definition selected_ion : list key :=
  [KStr "precursorList"; KStr "precursor"; KInt 0;
   KStr "selectedIonList"; KStr "selectedIon"; KInt 0].

(** The [try: ... except: ...] around the charge state. *)
Definition try_charge_state (spectrum : gmap string pyval) : pyval :=
  match v ← py_path (PyDict spectrum) (selected_ion ++ [KStr "charge state"]);
        py_int v with
  | Ok z => PyInt z
  | Raise _ => PyStr "unknown"
  end.

(** The branch taken for a spectrum of level 2 with an m/z array; its last
    statement, [if len(spectrum['m/z array']) == 0: pass], evaluates the
    length and does nothing with it. *)
Definition extract (spectrum : gmap string pyval) : result extraction :=
  precursor_mz ← py_path (PyDict spectrum) (selected_ion ++ [KStr "selected ion m/z"]);
  let charge_state := try_charge_state spectrum in
  mz ← dict_getitem spectrum "m/z array";
  intensity ← dict_getitem spectrum "intensity array";
  let peaklist : gmap string pyval :=
    <["intensity array" := intensity]> (<["m/z array" := mz]> ∅) in
  mz' ← dict_getitem spectrum "m/z array";
  n ← py_len mz';
  Ok {| precursor_mz := precursor_mz;
        charge_state := charge_state;
        peaklist := peaklist |}.

(** The body of the loop over the spectra. *)
Definition spectrum_body (stats : gmap string Z) (spectrum : gmap string pyval)
  : io (gmap string Z) :=
  ms_level ← lift (dict_getitem spectrum "ms level");
  (if eq_int ms_level 2 && dict_contains "m/z array" spectrum
   then _ ← lift (extract spectrum); mret tt
   else mret tt);;
  lift (incr stats "n_spectra").

Definition initial_stats : gmap string Z :=
  <["n_ms2_spectra" := 0]> (<["n_ms1_spectra" := 0]>
    (<["n_ms0_spectra" := 0]> (<["n_spectra" := 0]> ∅))).

(** The loop of [read_spectra] and the counters it ends with. *)
Definition spectra_loop (reader : list (gmap string pyval)) : io (gmap string Z) :=
  for_each spectrum_body reader initial_stats.

(** [MzMLReader(mzml_file).read_spectra()]; [reader] is the sequence of
    spectra that [mzml.read(infile)] yields, [t0] and [t1] the two readings
    of the clock. *)
Definition read_spectra (mzml_file : string) (reader : list (gmap string pyval))
  (t0 t1 : float) : io unit :=
  emit (Open mzml_file (endswith mzml_file ".gz"));;
  stats ← spectra_loop reader;
  emit (Close mzml_file);;
  n ← lift (stats_get stats "n_spectra");
  sec ← lift (int_of_float (PrimFloat.sub t1 t0));
  n' ← lift (stats_get stats "n_spectra");
  per_sec ← lift (truediv_int_float n' (PrimFloat.sub t1 t0));
  emit (Stdout (Summary n mzml_file sec per_sec)).

(** The first file of the command line that [os.path.isfile] refuses. *)
Fixpoint first_missing (isfile : string -> bool) (files : list string)
  : option string :=
  match files with
  | [] => None
  | file :: rest => if isfile file then first_missing isfile rest else Some file
  end.

(** The second loop of [main]; [fs file] is the record sequence of a regular
    file and [None] for anything else, [timer i] the [i]-th reading of the
    clock. *)
Fixpoint process_files (fs : string -> option (list (gmap string pyval)))
  (timer : nat -> float) (files : list string) (tick : nat) : io unit :=
  match files with
  | [] => mret tt
  | file :: rest =>
      match fs file with
      | Some reader =>
          read_spectra file reader (timer tick) (timer (S tick));;
          process_files fs timer rest (S (S tick))
      | None => raise OSError
      end
  end.

Definition main (fs : string -> option (list (gmap string pyval)))
  (timer : nat -> float) (files : list string) : io unit :=
  match first_missing (fun file => bool_decide (is_Some (fs file))) files with
  | Some file => emit (Stdout (ErrNotAFile file))
  | None => process_files fs timer files 0
  end.

End MzML.

Import PepXml MzML.

(** ** Specification-side definitions *)

Module Spec.

(** Every character of [m] is in the class [p]. *)
Fixpoint all_chars (p : ascii -> bool) (m : string) : Prop :=
  match m with
  | EmptyString => True
  | String c m' => p c = true /\ all_chars p m'
  end.

(** What a successful run of [r] means: [r] matched the text [m], in front
    of [rest], and took the groups from [gs] to [gs']. *)
Fixpoint denotes (r : regex) (m rest : string) (gs gs' : list string) : Prop :=
  match r with
  | Atom a => exists c, m = String c EmptyString /\ atom_ok a c = true /\ gs' = gs
  | Plus a => m <> EmptyString /\ all_chars (atom_ok a) m /\ gs' = gs
  | Group r' => exists gs0, denotes r' m rest gs gs0 /\ gs' = gs0 ++ [m]
  | Seq r1 r2 =>
      exists m1 m2 gs1, m = m1 +:+ m2
        /\ denotes r1 m1 (m2 +:+ rest) gs gs1 /\ denotes r2 m2 rest gs1 gs'
  | Dollar => m = EmptyString /\ at_end rest = true /\ gs' = gs
  end.

(** [<run>.<scan>.<index>.<charge>] *)
Definition rejoin (run scan index charge : string) : string :=
  run +:+ "." +:+ scan +:+ "." +:+ index +:+ "." +:+ charge.

Definition newline_string : string := String newline EmptyString.

Definition no_dot (c : ascii) : bool := negb (Ascii.eqb c ".").

Definition is_ok {A} (r : result A) : bool :=
  match r with
  | Ok _ => true
  | Raise _ => false
  end.

(** *** Identification records *)

Definition peptide_path : list key :=
  [KStr "search_hit"; KInt 0; KStr "peptide"].

Definition analysis_result_path : list key :=
  [KStr "search_hit"; KInt 0; KStr "analysis_result"].

(** The PSM has a peptide, the assumed charge [charge] and the spectrum
    name [name]. *)
Definition psm_fields (psm : gmap string pyval) (name : string) (charge : pyval)
  : Prop :=
  is_ok (py_path (PyDict psm) peptide_path) = true
  /\ psm !! "assumed_charge" = Some charge
  /\ psm !! "spectrum" = Some (PyStr name).

(** The PSM passes the name decomposition, with scan number [scan], and the
    charge validation. *)
Definition validated (psm : gmap string pyval) (name scan : string) : Prop :=
  exists charge run index chg c,
    psm_fields psm name charge
    /\ re_match spectrum_name_re name = Some [run; scan; index; chg]
    /\ py_int charge = Ok c /\ py_int (PyStr chg) = Ok c.

(** The charge decoded from the name of the PSM differs from its assumed
    charge. *)
Definition charge_differs (psm : gmap string pyval) (name : string)
  (charge : pyval) : Prop :=
  exists run scan index chg c c4,
    psm_fields psm name charge
    /\ re_match spectrum_name_re name = Some [run; scan; index; chg]
    /\ py_int charge = Ok c /\ py_int (PyStr chg) = Ok c4 /\ c <> c4.

(** The analysis results of the first search hit are the list [results]. *)
Definition analysis_results (psm : gmap string pyval) (results : list pyval)
  : Prop :=
  py_path (PyDict psm) analysis_result_path = Ok (PyList results).

(** The entry is an analysis result of the method [method]. *)
Definition is_method (method : string) (entry : pyval) : bool :=
  match py_getitem entry (KStr "analysis") with
  | Ok a => eq_str a method
  | Raise _ => false
  end.

(** The probability the entry carries under the key of [method]. *)
Definition probability_of (method : string) (entry : pyval) : result pyval :=
  py_path entry [KStr (method +:+ "_result"); KStr "probability"].

(** An entry names its method, and an entry of one of the two known methods
    carries its probability. *)
Definition well_formed (entry : pyval) : bool :=
  is_ok (py_getitem entry (KStr "analysis"))
  && implb (is_method "peptideprophet" entry)
           (is_ok (probability_of "peptideprophet" entry))
  && implb (is_method "interprophet" entry)
           (is_ok (probability_of "interprophet" entry)).

(** The probability of the last entry of [method], [default] without one. *)
Fixpoint last_probability (method : string) (results : list pyval)
  (default : pyval) : pyval :=
  match results with
  | [] => default
  | entry :: rest =>
      last_probability method rest
        (if is_method method entry then
           match probability_of method entry with
           | Ok p => p
           | Raise _ => default
           end
         else default)
  end.

(** The probability of the first entry of [method], [default] without one. *)
Fixpoint first_probability (method : string) (results : list pyval)
  (default : pyval) : pyval :=
  match results with
  | [] => default
  | entry :: rest =>
      if is_method method entry then
        match probability_of method entry with
        | Ok p => p
        | Raise _ => default
        end
      else first_probability method rest default
  end.

Definition is_to_csv (e : event) : bool :=
  match e with
  | ToCsv _ => true
  | _ => false
  end.

Definition is_open (e : event) : bool :=
  match e with
  | Open _ _ => true
  | _ => false
  end.

Definition is_stdout (e : event) : bool :=
  match e with
  | Stdout _ => true
  | _ => false
  end.

(** *** Spectra records *)

Definition selected_ion_mz : list key := selected_ion ++ [KStr "selected ion m/z"].

Definition charge_state_path : list key := selected_ion ++ [KStr "charge state"].

Definition has_len (v : pyval) : bool := is_ok (py_len v).

(** The spectrum is of level 2 and has an m/z array: the loop examines it. *)
Definition examined (spectrum : gmap string pyval) : bool :=
  match spectrum !! "ms level" with
  | Some ms_level => eq_int ms_level 2 && dict_contains "m/z array" spectrum
  | None => false
  end.

(** What the loop needs of an examined spectrum besides the charge state:
    the m/z of the selected ion and the two arrays. *)
Definition extractable (spectrum : gmap string pyval) : bool :=
  is_ok (py_path (PyDict spectrum) selected_ion_mz)
  && match spectrum !! "m/z array" with
     | Some mz => has_len mz
     | None => false
     end
  && dict_contains "intensity array" spectrum.

(** The loop goes through the spectrum without an exception. *)
Definition processable (spectrum : gmap string pyval) : bool :=
  dict_contains "ms level" spectrum
  && implb (examined spectrum) (extractable spectrum).

(** *** Runs *)

(** The PSM has its fields and a spectrum name that the pattern refuses. *)
Definition name_rejected (psm : gmap string pyval) (name : string) : Prop :=
  exists charge, psm_fields psm name charge
                 /\ re_match spectrum_name_re name = None.

(** [row] is the row of a PSM that passes: the scan number of its name and
    the probability of its last "peptideprophet" entry. *)
Definition row_for (psm : gmap string pyval) (row : list pyval) : Prop :=
  exists name scan results,
    validated psm name scan /\ analysis_results psm results
    /\ Forall (fun entry => well_formed entry = true) results
    /\ row = [PyStr scan; last_probability "peptideprophet" results PyNone].

(** The files a run opened, in order. *)
Fixpoint opened (tr : list event) : list string :=
  match tr with
  | [] => []
  | Open file _ :: tr' => file :: opened tr'
  | _ :: tr' => opened tr'
  end.

(** The files a run reported on and the number of spectra it reported for
    each, in order. *)
Fixpoint reported (tr : list event) : list (string * Z) :=
  match tr with
  | [] => []
  | Stdout (Summary n file _ _) :: tr' => (file, n) :: reported tr'
  | _ :: tr' => reported tr'
  end.

(** The number of spectra of a file, 0 for what is not a file. *)
Definition spectra_count (fs : string -> option (list (gmap string pyval)))
  (file : string) : Z :=
  match fs file with
  | Some reader => Z.of_nat (length reader)
  | None => 0
  end.

Definition is_error_line (l : line) : bool :=
  match l with
  | ErrChargeMismatch _ _ | ErrParseName _ => true
  | _ => false
  end.

End Spec.

(** ** Sample records *)

Module Sample.

Definition dict_of (l : list (string * pyval)) : gmap string pyval :=
  list_to_map l.

Definition prophet (method : string) (p : float) : pyval :=
  PyDict (dict_of [("analysis", PyStr method);
                   (method +:+ "_result",
                    PyDict (dict_of [("probability", PyFloat p)]))]).

Definition psm_of (name : string) (charge : Z) (results : list pyval)
  : gmap string pyval :=
  dict_of [("spectrum", PyStr name);
           ("assumed_charge", PyInt charge);
           ("search_hit",
            PyList [PyDict (dict_of [("peptide", PyStr "LSDGVAVLK");
                                     ("analysis_result", PyList results)])])].

Definition precursor_list (ion : list (string * pyval)) : pyval :=
  PyDict (dict_of
    [("precursor",
      PyList [PyDict (dict_of
        [("selectedIonList",
          PyDict (dict_of [("selectedIon", PyList [PyDict (dict_of ion)])]))])])]).

Definition ms2_of (ion : list (string * pyval)) : gmap string pyval :=
  dict_of [("ms level", PyInt 2);
           ("m/z array", PyList [PyFloat 100.5; PyFloat 201.25]);
           ("intensity array", PyList [PyFloat 7; PyFloat 11.5]);
           ("precursorList", precursor_list ion)].

Definition ms1 : gmap string pyval :=
  dict_of [("ms level", PyInt 1);
           ("m/z array", PyList [PyFloat 100.5]);
           ("intensity array", PyList [PyFloat 7])].

(** A spectrum of level 2 with its m/z array and no precursor list. *)
Definition ms2_without_precursor : gmap string pyval :=
  dict_of [("ms level", PyInt 2);
           ("m/z array", PyList [PyFloat 100.5]);
           ("intensity array", PyList [PyFloat 7])].

(** A directory where every path but [missing.mzML] is a file holding one
    spectrum of level 1. *)
Definition fs (file : string) : option (list (gmap string pyval)) :=
  if String.eqb file "missing.mzML" then None else Some [ms1].

(** A directory of three files: two spectra of level 1 in [a.mzML], a
    spectrum of level 2 without a precursor list in [b.mzML], one spectrum of
    level 1 in [c.mzML]. *)
Definition batch_fs (file : string) : option (list (gmap string pyval)) :=
  if String.eqb file "a.mzML" then Some [ms1; ms1]
  else if String.eqb file "b.mzML" then Some [ms2_without_precursor]
  else if String.eqb file "c.mzML" then Some [ms1]
  else None.

(** A clock that reads 1 at the start of a file and 3 at its end. *)
Definition timer (i : nat) : float := if Nat.even i then 1%float else 3%float.

End Sample.

Import Spec.

(** ** The matcher *)

Section Matcher.

Lemma append_cons (c : ascii) (a b : string) :
  String c a +:+ b = String c (a +:+ b).
Proof. reflexivity. Qed.

Lemma append_nil (b : string) : "" +:+ b = b.
Proof. reflexivity. Qed.

Lemma append_assoc (a b c : string) : (a +:+ b) +:+ c = a +:+ (b +:+ c).
Proof.
  induction a as [|x a IH]; [reflexivity|].
  rewrite !append_cons. now f_equal.
Qed.

Lemma append_empty_r (a : string) : a +:+ "" = a.
Proof.
  induction a as [|x a IH]; [reflexivity|].
  rewrite append_cons. now f_equal.
Qed.

Lemma star_sound {A} (p : ascii -> bool) (s : string)
  (k : string -> string -> option A) (res : A) :
  star p s k = Some res ->
  exists m rest, s = m +:+ rest /\ all_chars p m /\ k m rest = Some res.
Proof.
  revert k. induction s as [|c s IH]; intros k H; simpl in H.
  - exists EmptyString, EmptyString. simpl. auto.
  - destruct (p c) eqn:Hp.
    + destruct (star p s (fun m rest => k (String c m) rest)) as [r|] eqn:Hs.
      * injection H as <-. apply IH in Hs as (m & rest & -> & Hall & Hk).
        exists (String c m), rest. simpl. auto.
      * exists EmptyString, (String c s). simpl. auto.
    + exists EmptyString, (String c s). simpl. auto.
Qed.

Lemma run_sound {A} (r : regex) : forall (s : string) (gs : list string)
  (k : string -> string -> list string -> option A) (res : A),
  run r s gs k = Some res ->
  exists m rest gs', s = m +:+ rest /\ denotes r m rest gs gs'
                     /\ k m rest gs' = Some res.
Proof.
  induction r as [a|a|r IH|r1 IH1 r2 IH2|]; intros s gs k res H; simpl in H.
  - destruct s as [|c s]; [discriminate|].
    destruct (atom_ok a c) eqn:Ha; [|discriminate].
    exists (String c EmptyString), s, gs. simpl. eauto 6.
  - destruct s as [|c s]; [discriminate|].
    destruct (atom_ok a c) eqn:Ha; [|discriminate].
    apply star_sound in H as (m & rest & -> & Hall & Hk).
    exists (String c m), rest, gs. simpl. repeat split; auto; discriminate.
  - apply IH in H as (m & rest & gs' & -> & Hd & Hk).
    exists m, rest, (gs' ++ [m]). simpl. eauto.
  - apply IH1 in H as (m1 & rest1 & gs1 & -> & Hd1 & Hk).
    apply IH2 in Hk as (m2 & rest2 & gs2 & -> & Hd2 & Hk).
    exists (m1 +:+ m2), rest2, gs2. rewrite append_assoc. simpl.
    split; [reflexivity|]. split; [|exact Hk].
    exists m1, m2, gs1. auto.
  - destruct (at_end s) eqn:He; [|discriminate].
    exists EmptyString, s, gs. simpl. auto.
Qed.

Lemma at_end_cases (s : string) :
  at_end s = true -> s = EmptyString \/ s = newline_string.
Proof.
  destruct s as [|c [|d s]]; simpl; intros H; auto; [|discriminate].
  right. apply Ascii.eqb_eq in H. now subst.
Qed.

Lemma spectrum_name_re_sound (s : string) (m : list string) :
  re_match spectrum_name_re s = Some m ->
  exists run scan index charge tail,
    m = [run; scan; index; charge]
    /\ s = rejoin run scan index charge +:+ tail
    /\ (tail = EmptyString \/ tail = newline_string)
    /\ all_chars is_digit scan /\ all_chars is_digit index
    /\ all_chars is_digit charge.
Proof.
  unfold re_match. intros H.
  apply run_sound in H as (m0 & rest & gs & -> & Hd & Hk).
  injection Hk as <-. unfold spectrum_name_re in Hd. simpl in Hd.
  destruct Hd as (m1 & ? & gs1 & -> & (? & (_ & _ & ->) & ->) & Hd).
  destruct Hd as (? & ? & ? & -> & (? & -> & Hdot1 & ->) & Hd).
  destruct Hd as (m2 & ? & ? & -> & (? & (_ & Hm2 & ->) & ->) & Hd).
  destruct Hd as (? & ? & ? & -> & (? & -> & Hdot2 & ->) & Hd).
  destruct Hd as (m3 & ? & ? & -> & (? & (_ & Hm3 & ->) & ->) & Hd).
  destruct Hd as (? & ? & ? & -> & (? & -> & Hdot3 & ->) & Hd).
  destruct Hd as (m4 & ? & ? & -> & (? & (_ & Hm4 & ->) & ->) & (-> & He & ->)).
  apply Ascii.eqb_eq in Hdot1, Hdot2, Hdot3. subst.
  exists m1, m2, m3, m4, rest. simpl.
  split; [reflexivity|]. split.
  - unfold rejoin. rewrite append_empty_r, !append_assoc, !append_cons, !append_nil.
    reflexivity.
  - split; [now apply at_end_cases | auto].
Qed.

(** The run name takes the dots it can: the last three fields are the
    numeric ones. *)
Example greedy_run_name :
  re_match spectrum_name_re "a.b.1.2.3.4" = Some ["a.b.1"; "2"; "3"; "4"].
Proof. reflexivity. Qed.

Example name_without_charge : re_match spectrum_name_re "run01.00123.2" = None.
Proof. reflexivity. Qed.

Example name_with_text_after : re_match spectrum_name_re "a.1.2.3x" = None.
Proof. reflexivity. Qed.

Example int_of_padded_text : py_int (PyStr " +1_0 ") = Ok 10.
Proof. reflexivity. Qed.

Example int_of_leading_zeros : py_int (PyStr "00123") = Ok 123.
Proof. reflexivity. Qed.

Example int_of_charge_text : py_int (PyStr "2+") = Raise ValueError.
Proof. reflexivity. Qed.

Example int_of_none : py_int PyNone = Raise TypeError.
Proof. reflexivity. Qed.

End Matcher.

(** ** Events and exceptions *)

Section Effects.

Context {A B : Type}.

Lemma ret_bind (a : A) (f : A -> io B) : mret a ≫= f = f a.
Proof. unfold mbind, io_bind, mret, io_ret. now destruct (f a). Qed.

Lemma lift_ok_bind (a : A) (f : A -> io B) : lift (Ok a) ≫= f = f a.
Proof. apply ret_bind. Qed.

Lemma quiet_ok_bind (a : A) (f : A -> io B) : ([], Ok a) ≫= f = f a.
Proof. apply ret_bind. Qed.

Lemma lift_raise_bind (e : exn) (f : A -> io B) :
  lift (Raise e) ≫= f = lift (Raise e).
Proof. reflexivity. Qed.

Lemma raise_bind (e : exn) (f : A -> io B) : raise e ≫= f = raise e.
Proof. reflexivity. Qed.

Lemma emit_bind (ev : event) (k : io B) :
  (emit ev;; k) = (ev :: trace k, outcome k).
Proof. unfold mbind, io_bind, emit, trace, outcome. now destruct k. Qed.

Lemma bind_pair (tr : list event) (r : result A) (f : A -> io B) :
  (tr, r) ≫= f =
  match r with
  | Ok a => (tr ++ trace (f a), outcome (f a))
  | Raise e => (tr, Raise e)
  end.
Proof.
  unfold mbind, io_bind, trace, outcome. destruct r as [a|e]; [|reflexivity].
  now destruct (f a).
Qed.

Lemma bind_ok_inv (m : io A) (f : A -> io B) (tr : list event) (b : B) :
  m ≫= f = (tr, Ok b) ->
  exists tr1 a tr2, m = (tr1, Ok a) /\ f a = (tr2, Ok b) /\ tr = tr1 ++ tr2.
Proof.
  destruct m as [tr1 [a|e]]; rewrite bind_pair; [|discriminate].
  destruct (f a) as [tr2 r] eqn:Hf. unfold trace, outcome. simpl.
  intros [= <- ->]. eauto 6.
Qed.

Lemma lift_bind_ok_inv (r : result A) (f : A -> io B) (tr : list event) (b : B) :
  lift r ≫= f = (tr, Ok b) -> exists a, r = Ok a /\ f a = (tr, Ok b).
Proof.
  destruct r as [a|e]; [|discriminate]. rewrite lift_ok_bind. eauto.
Qed.

End Effects.

Lemma bind_assoc {A B C} (m : io A) (f : A -> io B) (g : B -> io C) :
  (m ≫= f) ≫= g = m ≫= (fun a => f a ≫= g).
Proof.
  destruct m as [tr [a|e]]; [|reflexivity].
  rewrite !bind_pair. destruct (f a) as [tr' [b|e]]; unfold trace, outcome; simpl.
  - destruct (g b) as [tr'' r]. simpl. now rewrite app_assoc.
  - reflexivity.
Qed.

Section Loops.

Context {A S : Type} (body : S -> A -> io S).

Lemma for_each_nil (st : S) : for_each body [] st = mret st.
Proof. reflexivity. Qed.

Lemma for_each_cons (x : A) (xs : list A) (st : S) :
  for_each body (x :: xs) st = body st x ≫= for_each body xs.
Proof. reflexivity. Qed.

Lemma for_each_app (xs ys : list A) (st : S) :
  for_each body (xs ++ ys) st = for_each body xs st ≫= for_each body ys.
Proof.
  revert st. induction xs as [|x xs IH]; intros st.
  - now rewrite app_nil_l, for_each_nil, ret_bind.
  - rewrite <- app_comm_cons, !for_each_cons, bind_assoc.
    destruct (body st x) as [tr [st'|e]].
    + now rewrite !bind_pair, IH.
    + now rewrite !bind_pair.
Qed.

(** A loop that ends without an exception went through every item. *)
Lemma for_each_ok_elem (xs : list A) (st st' : S) (tr : list event) (x : A) :
  for_each body xs st = (tr, Ok st') -> In x xs ->
  exists st0 tr0 st1, body st0 x = (tr0, Ok st1).
Proof.
  revert st tr. induction xs as [|y xs IH]; intros st tr H Hin; [destruct Hin|].
  rewrite for_each_cons in H.
  apply bind_ok_inv in H as (tr1 & st1 & tr2 & Hb & Hrest & _).
  destruct Hin as [->|Hin]; eauto.
Qed.

(** The events of a loop are events of its body. *)
Lemma for_each_trace (P : event -> Prop) (xs : list A) (st : S) :
  (forall st0 x, Forall P (trace (body st0 x))) ->
  Forall P (trace (for_each body xs st)).
Proof.
  intros Hbody. revert st. induction xs as [|x xs IH]; intros st.
  - constructor.
  - rewrite for_each_cons. specialize (Hbody st x).
    destruct (body st x) as [tr [st'|e]]; rewrite bind_pair; unfold trace in *.
    + apply Forall_app. split; [exact Hbody | apply IH].
    + exact Hbody.
Qed.

End Loops.

(** ** The identification reader *)

(** One step of a computation whose next action does not depend on the
    state of the run. *)
Ltac io_ok :=
  first [ rewrite lift_ok_bind | rewrite ret_bind | rewrite quiet_ok_bind ];
  cbv beta iota.

(** Case analysis on the result that the next action of a computation
    lifts. *)
Ltac io_case :=
  match goal with
  | |- context [lift ?r ≫= _] =>
      destruct r; [rewrite lift_ok_bind | rewrite lift_raise_bind];
      cbv beta iota
  end.

Section Identification.

Lemma analysis_step_well_formed (pp ip entry : pyval) :
  well_formed entry = true ->
  analysis_step (pp, ip) entry =
  Ok (last_probability "peptideprophet" [entry] pp,
      last_probability "interprophet" [entry] ip).
Proof.
  unfold well_formed, analysis_step, last_probability, is_method, probability_of.
  change ("peptideprophet" +:+ "_result") with "peptideprophet_result".
  change ("interprophet" +:+ "_result") with "interprophet_result".
  destruct (py_getitem entry (KStr "analysis")) as [a|e]; [|discriminate].
  destruct (py_path entry [KStr "peptideprophet_result"; KStr "probability"]);
    destruct (py_path entry [KStr "interprophet_result"; KStr "probability"]);
    simpl;
    destruct (eq_str a "peptideprophet");
    destruct (eq_str a "interprophet"); simpl;
    intros H; try discriminate; reflexivity.
Qed.

Lemma last_probability_cons (method : string) (entry : pyval)
  (rest : list pyval) (default : pyval) :
  last_probability method (entry :: rest) default =
  last_probability method rest (last_probability method [entry] default).
Proof. reflexivity. Qed.

Lemma analysis_loop_last (results : list pyval) : forall pp ip : pyval,
  Forall (fun entry => well_formed entry = true) results ->
  analysis_loop results (pp, ip) =
  Ok (last_probability "peptideprophet" results pp,
      last_probability "interprophet" results ip).
Proof.
  induction results as [|entry rest IH]; intros pp ip Hwf; [reflexivity|].
  apply Forall_cons in Hwf as [Hentry Hrest].
  change (analysis_loop (entry :: rest) (pp, ip))
    with (analysis_step (pp, ip) entry ≫= analysis_loop rest).
  rewrite (analysis_step_well_formed _ _ _ Hentry).
  rewrite (last_probability_cons "peptideprophet" entry rest),
          (last_probability_cons "interprophet" entry rest).
  apply IH, Hrest.
Qed.

(** After the last entry of a method, the entries of other methods leave
    its probability alone. *)
Lemma last_probability_none (method : string) (results : list pyval)
  (default : pyval) :
  Forall (fun entry => is_method method entry = false) results ->
  last_probability method results default = default.
Proof.
  revert default. induction results as [|entry rest IH]; intros default H.
  - reflexivity.
  - apply Forall_cons in H as [He Hrest].
    rewrite (last_probability_cons _ entry rest). simpl. rewrite He.
    now apply IH.
Qed.

Lemma last_probability_app (method : string) (pre post : list pyval)
  (default : pyval) :
  last_probability method (pre ++ post) default =
  last_probability method post (last_probability method pre default).
Proof.
  revert default. induction pre as [|entry pre IH]; intros default.
  - reflexivity.
  - rewrite <- app_comm_cons, (last_probability_cons _ entry (pre ++ post)).
    rewrite IH. reflexivity.
Qed.

Lemma last_probability_last (method : string) (pre post : list pyval)
  (entry p default : pyval) :
  is_method method entry = true -> probability_of method entry = Ok p ->
  Forall (fun e => is_method method e = false) post ->
  last_probability method (pre ++ entry :: post) default = p.
Proof.
  intros Hm Hp Hpost.
  rewrite last_probability_app, (last_probability_cons _ entry post).
  rewrite (last_probability_none _ _ _ Hpost). simpl. now rewrite Hm, Hp.
Qed.

Lemma dict_getitem_some (d : gmap string pyval) (k : string) (v : pyval) :
  d !! k = Some v -> dict_getitem d k = Ok v.
Proof. unfold dict_getitem, py_getitem. now intros ->. Qed.

Lemma group_of_four (g1 g2 g3 g4 : string) :
  let m := [g1; g2; g3; g4] in
  group m 1 = Ok g1 /\ group m 2 = Ok g2 /\ group m 4 = Ok g4.
Proof. repeat split. Qed.

Lemma decode_validated (psm : gmap string pyval) (name scan : string) :
  validated psm name scan -> decode_spectrum_name psm = ([], Ok scan).
Proof.
  intros (charge & run & index & chg & c & (Hpep & Hcharge & Hname)
          & Hm & Hc & Hc4).
  unfold decode_spectrum_name. unfold peptide_path in Hpep.
  destruct (py_path (PyDict psm) [KStr "search_hit"; KInt 0; KStr "peptide"])
    as [sequence|]; [|discriminate].
  io_ok. rewrite (dict_getitem_some _ _ _ Hcharge). io_ok.
  rewrite (dict_getitem_some _ _ _ Hname). io_ok.
  unfold match_spectrum_name. rewrite Hm. io_ok.
  destruct (group_of_four run scan index chg) as (-> & -> & ->).
  do 2 io_ok. rewrite Hc. do 2 io_ok. rewrite Hc4. io_ok.
  now rewrite Z.eqb_refl.
Qed.

Lemma decode_charge_differs (psm : gmap string pyval) (name : string)
  (charge : pyval) :
  charge_differs psm name charge ->
  decode_spectrum_name psm =
  ([Stdout (ErrChargeMismatch name charge)], Raise SystemExit).
Proof.
  intros (run & scan & index & chg & c & c4 & (Hpep & Hcharge & Hname)
          & Hm & Hc & Hc4 & Hne).
  unfold decode_spectrum_name. unfold peptide_path in Hpep.
  destruct (py_path (PyDict psm) [KStr "search_hit"; KInt 0; KStr "peptide"])
    as [sequence|]; [|discriminate].
  io_ok. rewrite (dict_getitem_some _ _ _ Hcharge). io_ok.
  rewrite (dict_getitem_some _ _ _ Hname). io_ok.
  unfold match_spectrum_name. rewrite Hm. io_ok.
  destruct (group_of_four run scan index chg) as (-> & -> & ->).
  do 2 io_ok. rewrite Hc. do 2 io_ok. rewrite Hc4. io_ok.
  apply Z.eqb_neq in Hne. rewrite Hne. reflexivity.
Qed.

Lemma psm_body_validated (st : state) (psm : gmap string pyval)
  (name scan : string) (results : list pyval) (n : Z) :
  validated psm name scan -> analysis_results psm results ->
  Forall (fun entry => well_formed entry = true) results ->
  stats st !! "n_psms" = Some n ->
  psm_body st psm =
  ([], Ok {| rows := rows st
               ++ [[PyStr scan; last_probability "peptideprophet" results PyNone]];
             psm_number := psm_number st + 1;
             stats := <["n_psms" := n + 1]> (stats st) |}).
Proof.
  intros Hv Hres Hwf Hn. unfold psm_body.
  rewrite (decode_validated _ _ _ Hv). io_ok.
  unfold analysis_results, analysis_result_path in Hres. rewrite Hres. io_ok.
  unfold py_iter. io_ok. rewrite (analysis_loop_last _ _ _ Hwf). io_ok.
  unfold incr. cbn [stats rows psm_number]. rewrite Hn. io_ok. reflexivity.
Qed.

Lemma psm_body_charge_differs (st : state) (psm : gmap string pyval)
  (name : string) (charge : pyval) :
  charge_differs psm name charge ->
  psm_body st psm = ([Stdout (ErrChargeMismatch name charge)], Raise SystemExit).
Proof.
  intros Hd. unfold psm_body. now rewrite (decode_charge_differs _ _ _ Hd).
Qed.

(** The name decomposition prints nothing, or prints one line and exits. *)
Lemma decode_cases (psm : gmap string pyval) :
  trace (decode_spectrum_name psm) = []
  \/ exists l, decode_spectrum_name psm = ([Stdout l], Raise SystemExit).
Proof.
  unfold decode_spectrum_name.
  do 4 (io_case; [|now left]).
  match goal with |- context [match ?p with pair _ _ => _ end] =>
    destruct p as [name [m|]] end.
  - do 5 (io_case; [|now left]).
    destruct (negb _); [right; eauto | now left].
  - right. eauto.
Qed.

Lemma psm_body_cases (st : state) (psm : gmap string pyval) :
  trace (psm_body st psm) = []
  \/ exists l, psm_body st psm = ([Stdout l], Raise SystemExit).
Proof.
  unfold psm_body.
  destruct (decode_cases psm) as [Hq|[l Hl]].
  - left. destruct (decode_spectrum_name psm) as [tr [scan|e]];
      unfold trace in Hq; simpl in Hq; subst tr; [|reflexivity].
    io_ok. do 3 (io_case; [|reflexivity]).
    match goal with |- context [match ?p with pair _ _ => _ end] =>
      destruct p as [pp ip] end.
    io_case; reflexivity.
  - right. exists l. now rewrite Hl.
Qed.

Lemma psm_body_prints (st : state) (psm : gmap string pyval) :
  Forall (fun e => is_stdout e = true) (trace (psm_body st psm)).
Proof.
  destruct (psm_body_cases st psm) as [->|[l ->]]; repeat constructor.
Qed.

Lemma psm_body_ok_inv (st st' : state) (psm : gmap string pyval)
  (tr : list event) :
  psm_body st psm = (tr, Ok st') ->
  tr = []
  /\ exists row n, rows st' = rows st ++ [row]
       /\ stats st !! "n_psms" = Some n
       /\ stats st' = <["n_psms" := n + 1]> (stats st).
Proof.
  intros H. split.
  - destruct (psm_body_cases st psm) as [Hq|[l Hl]]; [|congruence].
    now rewrite H in Hq.
  - unfold psm_body in H.
    apply bind_ok_inv in H as (tr1 & scan & tr2 & _ & H & _).
    do 3 (apply lift_bind_ok_inv in H as (? & _ & H)).
    match goal with H : context [match ?p with pair _ _ => _ end] |- _ =>
      destruct p as [pp ip] end.
    apply lift_bind_ok_inv in H as (stats' & Hincr & H).
    injection H as _ <-. cbn [rows stats] in *.
    unfold incr in Hincr.
    destruct (stats st !! "n_psms") as [n|] eqn:Hn; [|discriminate].
    injection Hincr as <-. eauto.
Qed.

(** The loop of [read_psms]: a run without an exception printed nothing,
    buffered one row for each PSM and counted each of them. *)
Lemma psm_loop_ok (reader : list (gmap string pyval)) :
  forall (st st' : state) (tr : list event) (n : Z),
  for_each psm_body reader st = (tr, Ok st') ->
  stats st !! "n_psms" = Some n ->
  tr = []
  /\ length (rows st') = (length (rows st) + length reader)%nat
  /\ stats st' !! "n_psms" = Some (n + Z.of_nat (length reader)).
Proof.
  induction reader as [|psm reader IH]; intros st st' tr n H Hn.
  - injection H as <- <-. rewrite Nat.add_0_r, Z.add_0_r. auto.
  - rewrite for_each_cons in H.
    apply bind_ok_inv in H as (tr1 & st1 & tr2 & Hbody & Hrest & ->).
    apply psm_body_ok_inv in Hbody as (-> & row & n' & Hrows & Hn' & Hstats).
    assert (n' = n) as -> by congruence.
    eapply IH in Hrest as (-> & Hlen & Hcount).
    2:{ rewrite Hstats. apply lookup_insert_eq. }
    rewrite Hlen, Hrows, length_app, Hcount. cbn [length].
    repeat split; [lia | f_equal; lia].
Qed.

End Identification.

Lemma read_psms_loop_raise (pepxml_file : string)
  (reader : list (gmap string pyval)) (t0 t1 : float) (tr : list event) (e : exn) :
  for_each psm_body reader initial_state = (tr, Raise e) ->
  read_psms pepxml_file reader t0 t1 =
  (Open pepxml_file (bool_decide (is_Some (re_search gz_re pepxml_file))) :: tr,
   Raise e).
Proof.
  intros H. unfold read_psms. rewrite emit_bind, H, bind_pair. reflexivity.
Qed.

(** *** The decomposition of the spectrum name *)

(** C5, as stated, fails: the [$] of the pattern also matches just before a
    newline that ends the name, so the name [run01.00123.00123.2] followed
    by a newline is accepted and the four parts rejoined do not give the name
    back. *)
Lemma rejoin_drops_newline :
  re_match spectrum_name_re ("run01.00123.00123.2" +:+ newline_string)
  = Some ["run01"; "00123"; "00123"; "2"]
  /\ rejoin "run01" "00123" "00123" "2"
     <> "run01.00123.00123.2" +:+ newline_string.
Proof. split; [reflexivity | discriminate]. Qed.

(** C5 (amended): for every spectrum name the pattern accepts, the match has
    four groups, and rejoining them as [<run>.<scan>.<index>.<charge>] gives
    the name back exactly, or the name without the newline that ends it. *)
Theorem rejoin_up_to_newline (s : string) (m : list string) :
  re_match spectrum_name_re s = Some m ->
  exists run scan index charge,
    m = [run; scan; index; charge]
    /\ (s = rejoin run scan index charge
        \/ s = rejoin run scan index charge +:+ newline_string).
Proof.
  intros H.
  apply spectrum_name_re_sound in H
    as (run & scan & index & charge & tail & -> & -> & [->| ->] & _).
  - exists run, scan, index, charge. rewrite append_empty_r. auto.
  - exists run, scan, index, charge. auto.
Qed.

Lemma rejoin_up_to_newline_witness :
  exists run scan index charge,
    ["run01"; "00123"; "00123"; "2"] = [run; scan; index; charge]
    /\ ("run01.00123.00123.2" = rejoin run scan index charge
        \/ "run01.00123.00123.2"
           = rejoin run scan index charge +:+ newline_string).
Proof.
  apply (rejoin_up_to_newline "run01.00123.00123.2"). reflexivity.
Defined.

(** *** The row of a PSM *)

(** C1, as stated, fails: of two "peptideprophet" entries with the
    probabilities 0.75 and 0.25, the row carries the second one. *)
Lemma first_peptideprophet_overwritten :
  let results := [Sample.prophet "peptideprophet" 0.75;
                  Sample.prophet "peptideprophet" 0.25] in
  exists st,
    psm_body initial_state (Sample.psm_of "run01.00123.00123.2" 2 results)
    = ([], Ok st)
    /\ rows st = [[PyStr "00123"; PyFloat 0.25]]
    /\ first_probability "peptideprophet" results PyNone = PyFloat 0.75
    /\ PyFloat 0.25 <> PyFloat 0.75.
Proof.
  eexists. split; [vm_compute; reflexivity|].
  split; [reflexivity|]. split; [reflexivity|].
  intros H.
  apply (f_equal (fun v => match v with
                           | PyFloat x => PrimFloat.eqb x 0.25
                           | _ => false
                           end)) in H.
  vm_compute in H. discriminate H.
Qed.

(** C1 (amended): for every validated PSM whose analysis results hold
    several entries of the method "peptideprophet", the probability of the
    row is the one of the last such entry: each occurrence overwrites the
    one before. *)
Theorem last_peptideprophet_wins (st : state) (psm : gmap string pyval)
  (name scan : string) (pre post : list pyval) (entry p : pyval) (n : Z) :
  validated psm name scan ->
  analysis_results psm (pre ++ entry :: post) ->
  Forall (fun e => well_formed e = true) (pre ++ entry :: post) ->
  is_method "peptideprophet" entry = true ->
  probability_of "peptideprophet" entry = Ok p ->
  Forall (fun e => is_method "peptideprophet" e = false) post ->
  stats st !! "n_psms" = Some n ->
  exists st', psm_body st psm = ([], Ok st')
              /\ rows st' = rows st ++ [[PyStr scan; p]].
Proof.
  intros Hv Hres Hwf Hm Hp Hpost Hn.
  rewrite (psm_body_validated _ _ _ _ _ _ Hv Hres Hwf Hn).
  eexists. split; [reflexivity|]. cbn [rows].
  now rewrite (last_probability_last _ _ _ _ _ _ Hm Hp Hpost).
Qed.

Lemma validated_sample :
  validated (Sample.psm_of "run01.00123.00123.2" 2
               [Sample.prophet "peptideprophet" 0.75;
                Sample.prophet "interprophet" 0.5;
                Sample.prophet "peptideprophet" 0.25])
            "run01.00123.00123.2" "00123".
Proof.
  exists (PyInt 2), "run01", "00123", "2", 2. repeat split.
Defined.

Lemma last_peptideprophet_wins_witness :
  exists st',
    psm_body initial_state
      (Sample.psm_of "run01.00123.00123.2" 2
         [Sample.prophet "peptideprophet" 0.75;
          Sample.prophet "interprophet" 0.5;
          Sample.prophet "peptideprophet" 0.25]) = ([], Ok st')
    /\ rows st' = rows initial_state ++ [[PyStr "00123"; PyFloat 0.25]].
Proof.
  apply (last_peptideprophet_wins initial_state _ "run01.00123.00123.2" "00123"
           [Sample.prophet "peptideprophet" 0.75;
            Sample.prophet "interprophet" 0.5] []
           (Sample.prophet "peptideprophet" 0.25) (PyFloat 0.25) 0).
  - exact validated_sample.
  - reflexivity.
  - repeat constructor.
  - reflexivity.
  - reflexivity.
  - constructor.
  - reflexivity.
Defined.

(** C3, as stated, fails: the scan number of the name
    [run01.00123.00123.2] goes into the row as the text of the second
    group, "00123", and not as the integer 123. *)
Lemma scan_number_is_text :
  exists st,
    psm_body initial_state
      (Sample.psm_of "run01.00123.00123.2" 2
         [Sample.prophet "peptideprophet" 0.75]) = ([], Ok st)
    /\ rows st = [[PyStr "00123"; PyFloat 0.75]]
    /\ rows st <> [[PyInt 123; PyFloat 0.75]].
Proof.
  eexists. split; [vm_compute; reflexivity|].
  split; [reflexivity | discriminate].
Qed.

(** C3 (amended): for the spectrum name [run01.00123.00123.2] with an
    assumed charge of 2, the decomposition yields the scan number "00123",
    the text of the second group with its leading zeros, and the charge 2
    from the name; no mismatch is raised and nothing is printed, and the row
    that enters the table is ["00123", <probability>]. *)
Theorem scenario_run01 (st : state) (psm : gmap string pyval)
  (charge : pyval) (results : list pyval) (n : Z) :
  psm_fields psm "run01.00123.00123.2" charge ->
  py_int charge = Ok 2 ->
  analysis_results psm results ->
  Forall (fun e => well_formed e = true) results ->
  stats st !! "n_psms" = Some n ->
  re_match spectrum_name_re "run01.00123.00123.2"
  = Some ["run01"; "00123"; "00123"; "2"]
  /\ py_int (PyStr "2") = Ok 2
  /\ decode_spectrum_name psm = ([], Ok "00123")
  /\ exists st',
       psm_body st psm = ([], Ok st')
       /\ rows st' = rows st
            ++ [[PyStr "00123"; last_probability "peptideprophet" results PyNone]].
Proof.
  intros Hf Hc Hres Hwf Hn.
  assert (validated psm "run01.00123.00123.2" "00123") as Hv.
  { exists charge, "run01", "00123", "2", 2. repeat split; auto; apply Hf. }
  split; [reflexivity|]. split; [reflexivity|].
  split; [now apply decode_validated with (name := "run01.00123.00123.2")|].
  rewrite (psm_body_validated _ _ _ _ _ _ Hv Hres Hwf Hn).
  eexists. split; reflexivity.
Qed.

Lemma scenario_run01_witness :
  re_match spectrum_name_re "run01.00123.00123.2"
  = Some ["run01"; "00123"; "00123"; "2"]
  /\ py_int (PyStr "2") = Ok 2
  /\ decode_spectrum_name
       (Sample.psm_of "run01.00123.00123.2" 2
          [Sample.prophet "peptideprophet" 0.75]) = ([], Ok "00123")
  /\ exists st',
       psm_body initial_state
         (Sample.psm_of "run01.00123.00123.2" 2
            [Sample.prophet "peptideprophet" 0.75]) = ([], Ok st')
       /\ rows st' = rows initial_state
            ++ [[PyStr "00123";
                 last_probability "peptideprophet"
                   [Sample.prophet "peptideprophet" 0.75] PyNone]].
Proof.
  apply (scenario_run01 initial_state _ (PyInt 2) _ 0).
  - repeat split.
  - reflexivity.
  - reflexivity.
  - repeat constructor.
  - reflexivity.
Defined.

(** C10, as stated, fails: a PSM that passes the name decomposition and the
    charge validation and whose only analysis result is an "interprophet"
    entry without its [interprophet_result] has no "peptideprophet" entry,
    and yet the loop raises [KeyError] on it and appends no row. *)
Lemma interprophet_without_result_raises :
  let results :=
    [PyDict (Sample.dict_of [("analysis", PyStr "interprophet")])] in
  let psm := Sample.psm_of "run01.00123.00123.2" 2 results in
  validated psm "run01.00123.00123.2" "00123"
  /\ analysis_results psm results
  /\ Forall (fun e => is_method "peptideprophet" e = false) results
  /\ psm_body initial_state psm = ([], Raise (KeyError "interprophet_result")).
Proof.
  split; [exists (PyInt 2), "run01", "00123", "2", 2; repeat split|].
  split; [reflexivity|]. split; [repeat constructor | reflexivity].
Qed.

(** C10 (amended): for every PSM that passes the name decomposition and the
    charge validation, whose analysis results hold no "peptideprophet" entry
    and are well formed (each entry has its 'analysis' key, and an
    "interprophet" entry carries the probability of its
    [interprophet_result]), the loop still appends a row to the table, and
    the probability of that row is [None]. *)
Theorem row_without_peptideprophet (st : state) (psm : gmap string pyval)
  (name scan : string) (results : list pyval) (n : Z) :
  validated psm name scan ->
  analysis_results psm results ->
  Forall (fun e => well_formed e = true) results ->
  Forall (fun e => is_method "peptideprophet" e = false) results ->
  stats st !! "n_psms" = Some n ->
  exists st', psm_body st psm = ([], Ok st')
              /\ rows st' = rows st ++ [[PyStr scan; PyNone]].
Proof.
  intros Hv Hres Hwf Hnone Hn.
  rewrite (psm_body_validated _ _ _ _ _ _ Hv Hres Hwf Hn).
  eexists. split; [reflexivity|]. cbn [rows].
  now rewrite (last_probability_none _ _ _ Hnone).
Qed.

Lemma row_without_peptideprophet_witness :
  exists st',
    psm_body initial_state
      (Sample.psm_of "run01.00123.00123.2" 2
         [Sample.prophet "interprophet" 0.5]) = ([], Ok st')
    /\ rows st' = rows initial_state ++ [[PyStr "00123"; PyNone]].
Proof.
  apply (row_without_peptideprophet initial_state _
           "run01.00123.00123.2" "00123" [Sample.prophet "interprophet" 0.5] 0).
  - exists (PyInt 2), "run01", "00123", "2", 2. repeat split.
  - reflexivity.
  - repeat constructor.
  - repeat constructor.
  - reflexivity.
Defined.

(** *** A charge that disagrees *)

(** C4: for every input stream that holds a PSM whose charge decoded from
    the spectrum name differs from its assumed charge, the run ends with an
    exception and never writes the table; and when the PSMs in front of it
    went through the loop, the run ends at that PSM, with the charge
    mismatch line and [exit()], and the rows buffered for the PSMs in front
    of it are not written. *)
Theorem charge_mismatch_writes_nothing (pepxml_file : string)
  (pre post : list (gmap string pyval)) (psm : gmap string pyval)
  (name : string) (charge : pyval) (t0 t1 : float) :
  charge_differs psm name charge ->
  let run := read_psms pepxml_file (pre ++ psm :: post) t0 t1 in
  Forall (fun e => is_to_csv e = false) (trace run)
  /\ (exists e, outcome run = Raise e)
  /\ (forall tr st,
        for_each psm_body pre initial_state = (tr, Ok st) ->
        length (rows st) = length pre
        /\ run = ([Open pepxml_file
                     (bool_decide (is_Some (re_search gz_re pepxml_file)));
                   Stdout (ErrChargeMismatch name charge)],
                  Raise SystemExit)).
Proof.
  intros Hd run. subst run.
  destruct (for_each psm_body (pre ++ psm :: post) initial_state)
    as [tr [st|e]] eqn:Hloop.
  - exfalso.
    destruct (for_each_ok_elem psm_body _ _ _ _ psm Hloop)
      as (st0 & tr0 & st1 & Hbody).
    + apply in_or_app. right. now left.
    + rewrite (psm_body_charge_differs _ _ _ _ Hd) in Hbody. discriminate.
  - rewrite (read_psms_loop_raise _ _ _ _ _ _ Hloop).
    split; [|split].
    + constructor; [reflexivity|].
      pose proof (for_each_trace psm_body (fun e => is_stdout e = true)
                    (pre ++ psm :: post) initial_state psm_body_prints) as Hp.
      rewrite Hloop in Hp. unfold trace in *. simpl in *.
      eapply Forall_impl; [exact Hp|]. now intros [] .
    + eauto.
    + intros tr' st Hpre.
      rewrite for_each_app, Hpre, bind_pair, for_each_cons in Hloop.
      rewrite (psm_body_charge_differs _ _ _ _ Hd), bind_pair in Hloop.
      apply psm_loop_ok with (n := 0) in Hpre as (-> & Hlen & _);
        [|reflexivity].
      unfold trace, outcome in Hloop. simpl in Hloop.
      injection Hloop as <- <-. split; [exact Hlen | reflexivity].
Qed.

Lemma charge_mismatch_writes_nothing_witness :
  let run :=
    read_psms "interact.pep.xml"
      ([Sample.psm_of "run01.00122.00122.2" 2 []]
       ++ Sample.psm_of "run01.00123.00123.3" 2 [] :: []) 1 3 in
  Forall (fun e => is_to_csv e = false) (trace run)
  /\ (exists e, outcome run = Raise e)
  /\ run = ([Open "interact.pep.xml" false;
             Stdout (ErrChargeMismatch "run01.00123.00123.3" (PyInt 2))],
            Raise SystemExit).
Proof.
  destruct (charge_mismatch_writes_nothing "interact.pep.xml"
              [Sample.psm_of "run01.00122.00122.2" 2 []] []
              (Sample.psm_of "run01.00123.00123.3" 2 [])
              "run01.00123.00123.3" (PyInt 2) 1 3) as (Hcsv & Hexn & Hrun).
  - exists "run01", "00123", "00123", "3", 2, 3. repeat split. discriminate.
  - split; [exact Hcsv|]. split; [exact Hexn|].
    apply (Hrun [] {| rows := [[PyStr "00122"; PyNone]];
                      psm_number := 1;
                      stats := <["n_psms" := 1]> (stats initial_state) |}).
    vm_compute. reflexivity.
Defined.

(** ** The spectrum reader *)

Section Spectra.

Lemma py_path_app (v : pyval) (ks ks' : list key) :
  py_path v (ks ++ ks') = py_path v ks ≫= (fun v' => py_path v' ks').
Proof.
  revert v. induction ks as [|k ks IH]; intros v; [reflexivity|].
  rewrite <- app_comm_cons.
  change (py_path v (k :: ks ++ ks'))
    with (py_getitem v k ≫= (fun v' => py_path v' (ks ++ ks'))).
  change (py_path v (k :: ks))
    with (py_getitem v k ≫= (fun v' => py_path v' ks)).
  destruct (py_getitem v k) as [v'|e]; [apply IH | reflexivity].
Qed.

Lemma dict_contains_some (k : string) (d : gmap string pyval) :
  dict_contains k d = true -> exists v, d !! k = Some v.
Proof.
  unfold dict_contains. intros H. apply bool_decide_eq_true in H.
  destruct H as [v Hv]. eauto.
Qed.

(** The branch of an examined spectrum: what it extracts when the selected
    ion and the arrays are there. *)
Lemma extract_extractable (spectrum : gmap string pyval) :
  extractable spectrum = true ->
  exists mz arr intensity,
    py_path (PyDict spectrum) selected_ion_mz = Ok mz
    /\ spectrum !! "m/z array" = Some arr
    /\ spectrum !! "intensity array" = Some intensity
    /\ extract spectrum
       = Ok {| precursor_mz := mz;
               charge_state := try_charge_state spectrum;
               peaklist := <["intensity array" := intensity]>
                             (<["m/z array" := arr]> ∅) |}.
Proof.
  unfold extractable. intros H.
  apply andb_prop in H as [H Hint]. apply andb_prop in H as [Hmz Harr].
  apply dict_contains_some in Hint as [intensity Hint].
  destruct (py_path (PyDict spectrum) selected_ion_mz) as [mz|] eqn:Hpath;
    [|discriminate].
  destruct (spectrum !! "m/z array") as [arr|] eqn:Ha; [|discriminate].
  exists mz, arr, intensity. repeat split; auto.
  unfold extract. fold selected_ion_mz. rewrite Hpath.
  rewrite !(dict_getitem_some _ _ _ Ha), (dict_getitem_some _ _ _ Hint).
  unfold has_len in Harr. cbn [mbind result_bind].
  destruct (py_len arr); [reflexivity | discriminate].
Qed.

(** The branch of an examined spectrum raises what the path to the m/z of
    the selected ion raises. *)
Lemma extract_raise (spectrum : gmap string pyval) (e : exn) :
  py_path (PyDict spectrum) selected_ion_mz = Raise e ->
  extract spectrum = Raise e.
Proof. intros H. unfold extract. fold selected_ion_mz. now rewrite H. Qed.

Lemma spectrum_body_examined (stats : gmap string Z)
  (spectrum : gmap string pyval) :
  examined spectrum = true ->
  spectrum_body stats spectrum =
  ((lift (extract spectrum) ≫= (fun _ => mret tt));;
   lift (incr stats "n_spectra")).
Proof.
  unfold examined, spectrum_body. intros H.
  destruct (spectrum !! "ms level") as [ms_level|] eqn:Hl; [|discriminate].
  rewrite (dict_getitem_some _ _ _ Hl). io_ok. now rewrite H.
Qed.

Lemma spectrum_body_processable (stats : gmap string Z)
  (spectrum : gmap string pyval) (n : Z) :
  processable spectrum = true -> stats !! "n_spectra" = Some n ->
  spectrum_body stats spectrum = ([], Ok (<["n_spectra" := n + 1]> stats)).
Proof.
  unfold processable. intros H Hn.
  apply andb_prop in H as [Hl H].
  destruct (examined spectrum) eqn:Hex.
  - rewrite (spectrum_body_examined _ _ Hex).
    destruct (extract_extractable spectrum H) as (? & ? & ? & _ & _ & _ & ->).
    do 2 io_ok. unfold incr. now rewrite Hn.
  - apply dict_contains_some in Hl as [ms_level Hl].
    unfold spectrum_body, examined in *. rewrite Hl in Hex.
    rewrite (dict_getitem_some _ _ _ Hl). io_ok. rewrite Hex. io_ok.
    unfold incr. now rewrite Hn.
Qed.

Lemma spectrum_body_ok_inv (stats stats' : gmap string Z)
  (spectrum : gmap string pyval) (tr : list event) :
  spectrum_body stats spectrum = (tr, Ok stats') ->
  tr = [] /\ exists n, stats !! "n_spectra" = Some n
                       /\ stats' = <["n_spectra" := n + 1]> stats.
Proof.
  unfold spectrum_body. intros H.
  apply lift_bind_ok_inv in H as (ms_level & _ & H).
  apply bind_ok_inv in H as (tr1 & [] & tr2 & Hbranch & H & ->).
  assert (tr1 = []) as ->.
  { destruct (_ && _).
    - apply lift_bind_ok_inv in Hbranch as (? & _ & Hbranch).
      now injection Hbranch.
    - now injection Hbranch. }
  unfold incr in H. destruct (stats !! "n_spectra") as [n|]; [|discriminate].
  injection H as <- <-. eauto.
Qed.

Lemma spectrum_body_quiet (stats : gmap string Z) (spectrum : gmap string pyval) :
  trace (spectrum_body stats spectrum) = [].
Proof.
  unfold spectrum_body. io_case; [|reflexivity].
  destruct (_ && _).
  - destruct (extract spectrum); [do 2 io_ok | reflexivity];
      destruct (incr stats "n_spectra"); reflexivity.
  - io_ok. destruct (incr stats "n_spectra"); reflexivity.
Qed.

(** The loop of [read_spectra] on spectra that all go through: the total
    counter is the only one that moves. *)
Lemma spectra_loop_processable (reader : list (gmap string pyval)) :
  forall (stats : gmap string Z) (n : Z),
  forallb processable reader = true -> stats !! "n_spectra" = Some n ->
  for_each spectrum_body reader stats
  = ([], Ok (<["n_spectra" := n + Z.of_nat (length reader)]> stats)).
Proof.
  induction reader as [|spectrum reader IH]; intros stats n Hall Hn.
  - rewrite for_each_nil, Z.add_0_r, insert_id by exact Hn. reflexivity.
  - apply andb_prop in Hall as [Hp Hall].
    rewrite for_each_cons, (spectrum_body_processable _ _ _ Hp Hn). io_ok.
    rewrite (IH _ (n + 1) Hall) by apply lookup_insert_eq.
    rewrite insert_insert_eq. do 3 f_equal. cbn [length]. lia.
Qed.

Lemma spectra_loop_ok (reader : list (gmap string pyval)) :
  forall (stats stats' : gmap string Z) (tr : list event) (n : Z),
  for_each spectrum_body reader stats = (tr, Ok stats') ->
  stats !! "n_spectra" = Some n ->
  tr = [] /\ stats' !! "n_spectra" = Some (n + Z.of_nat (length reader)).
Proof.
  induction reader as [|spectrum reader IH]; intros stats stats' tr n H Hn.
  - injection H as <- <-. now rewrite Z.add_0_r.
  - rewrite for_each_cons in H.
    apply bind_ok_inv in H as (tr1 & st1 & tr2 & Hbody & Hrest & ->).
    apply spectrum_body_ok_inv in Hbody as (-> & n' & Hn' & ->).
    assert (n' = n) as -> by congruence.
    eapply IH in Hrest as (-> & Hcount); [|apply lookup_insert_eq].
    split; [reflexivity|]. rewrite Hcount. f_equal. cbn [length]. lia.
Qed.

(** The summary of [read_spectra], once the loop is through. *)
Lemma read_spectra_summary (mzml_file : string)
  (reader : list (gmap string pyval)) (t0 t1 : float)
  (stats : gmap string Z) (n : Z) :
  spectra_loop reader = ([], Ok stats) -> stats !! "n_spectra" = Some n ->
  read_spectra mzml_file reader t0 t1 =
  (emit (Open mzml_file (endswith mzml_file ".gz"));;
   emit (Close mzml_file);;
   sec ← lift (int_of_float (PrimFloat.sub t1 t0));
   per_sec ← lift (truediv_int_float n (PrimFloat.sub t1 t0));
   emit (Stdout (Summary n mzml_file sec per_sec))).
Proof.
  intros Hloop Hn. unfold read_spectra. rewrite Hloop. io_ok.
  unfold stats_get. rewrite Hn. io_ok.
  destruct (int_of_float _); [|reflexivity]. repeat io_ok. reflexivity.
Qed.

End Spectra.

(** *** The counters *)

(** C2, as stated, fails: after a file of 1200 spectra of level 2 the
    counter [n_ms2_spectra] is still 0; the total is the only counter the
    loop moves. *)
Lemma level_counter_stays_zero :
  exists stats,
    spectra_loop
      (replicate 1200
         (Sample.ms2_of [("selected ion m/z", PyFloat 500.25);
                         ("charge state", PyInt 2)]))
    = ([], Ok stats)
    /\ stats !! "n_spectra" = Some 1200
    /\ stats !! "n_ms2_spectra" = Some 0.
Proof.
  eexists. split; [vm_compute; reflexivity|]. split; reflexivity.
Qed.

(** C2 (amended): for every spectra record the reader processes, the
    total-record counter is incremented by one; consequently, for a file of
    1200 spectra of level 2 (for any file whose records all go through),
    the final summary reports a total of 1200 spectra (the number of
    records). *)
Theorem total_counter_counts (mzml_file : string)
  (reader : list (gmap string pyval)) (t0 t1 : float) (sec : Z)
  (per_sec : float) :
  forallb processable reader = true ->
  int_of_float (PrimFloat.sub t1 t0) = Ok sec ->
  truediv_int_float (Z.of_nat (length reader)) (PrimFloat.sub t1 t0)
  = Ok per_sec ->
  (forall pre spectrum post, reader = pre ++ spectrum :: post ->
     exists stats stats',
       for_each spectrum_body pre initial_stats = ([], Ok stats)
       /\ stats !! "n_spectra" = Some (Z.of_nat (length pre))
       /\ spectrum_body stats spectrum = ([], Ok stats')
       /\ stats' !! "n_spectra" = Some (Z.of_nat (length pre) + 1))
  /\ read_spectra mzml_file reader t0 t1
     = ([Open mzml_file (endswith mzml_file ".gz");
         Close mzml_file;
         Stdout (Summary (Z.of_nat (length reader)) mzml_file sec per_sec)],
        Ok tt).
Proof.
  intros Hall Hsec Hper. split.
  - intros pre spectrum post ->.
    rewrite forallb_app in Hall. apply andb_prop in Hall as [Hpre Hrest].
    apply andb_prop in Hrest as [Hs _].
    pose proof (spectra_loop_processable pre initial_stats 0 Hpre eq_refl)
      as Hloop.
    eexists. eexists. split; [exact Hloop|].
    split; [apply lookup_insert_eq|].
    split; [|apply lookup_insert_eq].
    apply spectrum_body_processable; [exact Hs | apply lookup_insert_eq].
  - pose proof (spectra_loop_processable reader initial_stats 0 Hall eq_refl)
      as Hloop.
    rewrite (read_spectra_summary _ _ _ _ _ (0 + Z.of_nat (length reader)) Hloop)
      by apply lookup_insert_eq.
    rewrite Z.add_0_l, Hsec, Hper. reflexivity.
Qed.

Lemma total_counter_counts_witness :
  let reader :=
    replicate 1200
      (Sample.ms2_of [("selected ion m/z", PyFloat 500.25);
                      ("charge state", PyInt 2)]) in
  (forall pre spectrum post, reader = pre ++ spectrum :: post ->
     exists stats stats',
       for_each spectrum_body pre initial_stats = ([], Ok stats)
       /\ stats !! "n_spectra" = Some (Z.of_nat (length pre))
       /\ spectrum_body stats spectrum = ([], Ok stats')
       /\ stats' !! "n_spectra" = Some (Z.of_nat (length pre) + 1))
  /\ read_spectra "run01.mzML" reader 1 3
     = ([Open "run01.mzML" false;
         Close "run01.mzML";
         Stdout (Summary 1200 "run01.mzML" 2 600)],
        Ok tt).
Proof.
  apply (total_counter_counts "run01.mzML"
           (replicate 1200
              (Sample.ms2_of [("selected ion m/z", PyFloat 500.25);
                              ("charge state", PyInt 2)])) 1 3 2 600).
  - vm_compute. reflexivity.
  - vm_compute. reflexivity.
  - vm_compute. reflexivity.
Defined.

(** *** The throughput *)

(** C6, as stated, fails: when the two readings of the clock are equal, the
    summary divides the count by zero and the run ends with
    [ZeroDivisionError], the summary line unprinted. *)
Lemma throughput_divides_by_zero :
  read_spectra "run01.mzML" [Sample.ms1] 2 2
  = ([Open "run01.mzML" false; Close "run01.mzML"], Raise ZeroDivisionError).
Proof. vm_compute. reflexivity. Qed.

(** C6 (amended): on completion of the loop over a spectra file, the
    throughput is the plain quotient of the count by the elapsed time
    [t1 - t0], without a guard: when the elapsed time is not zero the
    summary reports that quotient, and when it is zero the division raises
    [ZeroDivisionError] and there is no summary line. *)
Theorem throughput_unguarded (mzml_file : string)
  (reader : list (gmap string pyval)) (t0 t1 : float)
  (tr : list event) (stats : gmap string Z) (count : float) :
  spectra_loop reader = (tr, Ok stats) ->
  float_of_int (Z.of_nat (length reader)) = Ok count ->
  (float_is_zero (PrimFloat.sub t1 t0) = true ->
   read_spectra mzml_file reader t0 t1
   = ([Open mzml_file (endswith mzml_file ".gz"); Close mzml_file],
      Raise ZeroDivisionError))
  /\ (float_is_zero (PrimFloat.sub t1 t0) = false ->
      forall sec, int_of_float (PrimFloat.sub t1 t0) = Ok sec ->
      read_spectra mzml_file reader t0 t1
      = ([Open mzml_file (endswith mzml_file ".gz");
          Close mzml_file;
          Stdout (Summary (Z.of_nat (length reader)) mzml_file sec
                   (PrimFloat.div count (PrimFloat.sub t1 t0)))],
         Ok tt)).
Proof.
  intros Hloop Hcount.
  destruct (spectra_loop_ok reader initial_stats stats tr 0 Hloop eq_refl)
    as [-> Hn].
  rewrite Z.add_0_l in Hn.
  rewrite (read_spectra_summary _ _ _ _ _ _ Hloop Hn).
  unfold truediv_int_float. rewrite Hcount. split.
  - intros Hz. rewrite Hz.
    assert (int_of_float (PrimFloat.sub t1 t0) = Ok 0) as ->.
    { unfold float_is_zero in Hz. unfold int_of_float.
      destruct (Prim2SF (PrimFloat.sub t1 t0)); try discriminate. reflexivity. }
    reflexivity.
  - intros Hz sec Hsec. rewrite Hz, Hsec. reflexivity.
Qed.

Lemma throughput_unguarded_witness :
  read_spectra "run01.mzML" [Sample.ms1] 2 2
  = ([Open "run01.mzML" false; Close "run01.mzML"], Raise ZeroDivisionError)
  /\ read_spectra "run01.mzML" [Sample.ms1] 1 3
     = ([Open "run01.mzML" false; Close "run01.mzML";
         Stdout (Summary 1 "run01.mzML" 2 0.5)], Ok tt).
Proof.
  split.
  - apply (throughput_unguarded "run01.mzML" [Sample.ms1] 2 2 []
             (<["n_spectra" := 1]> initial_stats) 1); reflexivity.
  - destruct (throughput_unguarded "run01.mzML" [Sample.ms1] 1 3 []
                (<["n_spectra" := 1]> initial_stats) 1) as [_ Hquotient];
      [reflexivity | reflexivity |].
    apply (Hquotient eq_refl 2 eq_refl).
Defined.

(** The same quotient, unguarded too, ends [read_psms]: with equal readings
    of the clock the table is not written. *)
Lemma read_psms_divides_by_zero :
  read_psms "interact.pep.xml"
    [Sample.psm_of "run01.00123.00123.2" 2
       [Sample.prophet "peptideprophet" 0.75]] 2 2
  = ([Open "interact.pep.xml" false; Close "interact.pep.xml"],
     Raise ZeroDivisionError).
Proof. vm_compute. reflexivity. Qed.

(** *** The extraction from a spectrum of level 2 *)

(** C7, as stated, fails: a spectrum of level 2 with its m/z array and
    without a precursor list makes the extraction raise [KeyError], whatever
    its charge state. *)
Lemma extraction_raises_without_precursor :
  examined Sample.ms2_without_precursor = true
  /\ extract Sample.ms2_without_precursor = Raise (KeyError "precursorList")
  /\ spectrum_body initial_stats Sample.ms2_without_precursor
     = ([], Raise (KeyError "precursorList")).
Proof. repeat split. Qed.

(** C7 (amended): for every spectra record of level 2 with an m/z array,
    whose selected-ion m/z and intensity array are present as well, the
    extraction raises no exception: when the charge state is absent or is
    not numeric, the charge is recorded as "unknown", and no error
    propagates. *)
Theorem charge_state_best_effort (spectrum : gmap string pyval)
  (stats : gmap string Z) (n : Z) :
  examined spectrum = true -> extractable spectrum = true ->
  stats !! "n_spectra" = Some n ->
  (exists x, extract spectrum = Ok x
             /\ charge_state x = try_charge_state spectrum)
  /\ spectrum_body stats spectrum = ([], Ok (<["n_spectra" := n + 1]> stats))
  /\ (forall e, py_path (PyDict spectrum) charge_state_path = Raise e ->
                try_charge_state spectrum = PyStr "unknown")
  /\ (forall v e, py_path (PyDict spectrum) charge_state_path = Ok v ->
                  py_int v = Raise e ->
                  try_charge_state spectrum = PyStr "unknown")
  /\ (forall v z, py_path (PyDict spectrum) charge_state_path = Ok v ->
                  py_int v = Ok z ->
                  try_charge_state spectrum = PyInt z).
Proof.
  intros Hex Hx Hn. split; [|split; [|repeat split]].
  - destruct (extract_extractable spectrum Hx) as (? & ? & ? & _ & _ & _ & ->).
    eexists. split; reflexivity.
  - apply spectrum_body_processable; [|exact Hn].
    unfold processable. rewrite Hex, Hx.
    unfold examined in Hex. unfold dict_contains.
    destruct (spectrum !! "ms level") eqn:Hl; [|discriminate].
    rewrite bool_decide_eq_true_2; eauto.
  - intros e H. unfold try_charge_state. fold charge_state_path.
    now rewrite H.
  - intros v e H Hint. unfold try_charge_state. fold charge_state_path.
    rewrite H. cbn [mbind result_bind]. now rewrite Hint.
  - intros v z H Hint. unfold try_charge_state. fold charge_state_path.
    rewrite H. cbn [mbind result_bind]. now rewrite Hint.
Qed.

Lemma charge_state_best_effort_witness :
  let spectrum :=
    Sample.ms2_of [("selected ion m/z", PyFloat 500.25);
                   ("charge state", PyStr "2+")] in
  exists x, extract spectrum = Ok x
            /\ charge_state x = PyStr "unknown"
            /\ spectrum_body initial_stats spectrum
               = ([], Ok (<["n_spectra" := 1]> initial_stats)).
Proof.
  destruct (charge_state_best_effort
              (Sample.ms2_of [("selected ion m/z", PyFloat 500.25);
                              ("charge state", PyStr "2+")]) initial_stats 0)
    as ((x & Hx & Hcharge) & Hbody & _ & Hnot_numeric & _);
    [reflexivity | reflexivity | reflexivity |].
  exists x. split; [exact Hx|]. split; [|exact Hbody].
  rewrite Hcharge. apply (Hnot_numeric (PyStr "2+") ValueError); reflexivity.
Defined.

(** C9: for every spectra record of level 2 with an m/z array, the loop
    follows the path precursorList, precursor[0], selectedIonList,
    selectedIon[0], 'selected ion m/z' without a guard: when a step of the
    path is absent, the exception of that step leaves the extraction and the
    loop, and the reading of the file ends there, with no summary and no
    sentinel in place of the value. *)
Theorem precursor_is_required (spectrum : gmap string pyval)
  (stats : gmap string Z) (ks ks' : list key) (k : key) (v : pyval) (e : exn) :
  examined spectrum = true ->
  selected_ion_mz = ks ++ k :: ks' ->
  py_path (PyDict spectrum) ks = Ok v ->
  py_getitem v k = Raise e ->
  extract spectrum = Raise e
  /\ spectrum_body stats spectrum = ([], Raise e)
  /\ forall mzml_file pre post t0 t1,
       forallb processable pre = true ->
       read_spectra mzml_file (pre ++ spectrum :: post) t0 t1
       = ([Open mzml_file (endswith mzml_file ".gz")], Raise e).
Proof.
  intros Hex Hks Hv Hk.
  assert (extract spectrum = Raise e) as Hextract.
  { apply extract_raise. rewrite Hks, py_path_app, Hv.
    cbn [mbind result_bind].
    change (py_path v (k :: ks'))
      with (py_getitem v k ≫= (fun v' => py_path v' ks')).
    now rewrite Hk. }
  assert (forall st, spectrum_body st spectrum = ([], Raise e)) as Hbody.
  { intros st. now rewrite (spectrum_body_examined _ _ Hex), Hextract. }
  split; [exact Hextract|]. split; [apply Hbody|].
  intros mzml_file pre post t0 t1 Hpre.
  unfold read_spectra, spectra_loop.
  rewrite for_each_app.
  rewrite (spectra_loop_processable pre initial_stats 0 Hpre eq_refl).
  io_ok. rewrite for_each_cons, Hbody. reflexivity.
Qed.

Lemma precursor_is_required_witness :
  let spectrum := Sample.ms2_of [("charge state", PyInt 2)] in
  extract spectrum = Raise (KeyError "selected ion m/z")
  /\ spectrum_body initial_stats spectrum
     = ([], Raise (KeyError "selected ion m/z"))
  /\ forall mzml_file pre post t0 t1,
       forallb processable pre = true ->
       read_spectra mzml_file (pre ++ spectrum :: post) t0 t1
       = ([Open mzml_file (endswith mzml_file ".gz")],
          Raise (KeyError "selected ion m/z")).
Proof.
  apply (precursor_is_required
           (Sample.ms2_of [("charge state", PyInt 2)]) initial_stats
           selected_ion [] (KStr "selected ion m/z")
           (PyDict (Sample.dict_of [("charge state", PyInt 2)]))
           (KeyError "selected ion m/z")).
  - reflexivity.
  - reflexivity.
  - reflexivity.
  - reflexivity.
Defined.

(** *** The batch of files *)

Lemma first_missing_some (isfile : string -> bool) (files : list string) :
  (exists file, In file files /\ isfile file = false) ->
  exists missing, first_missing isfile files = Some missing
                  /\ In missing files /\ isfile missing = false.
Proof.
  induction files as [|file rest IH]; intros (f & Hin & Hf); [destruct Hin|].
  cbn [first_missing]. destruct (isfile file) eqn:Hfile.
  - destruct Hin as [->|Hin]; [congruence|].
    destruct IH as (missing & Hm & Hin' & Hmiss); [eauto|].
    exists missing. split; [exact Hm|]. split; [now right | exact Hmiss].
  - exists file. split; [reflexivity|]. split; [now left | exact Hfile].
Qed.

(** C8: for every batch of paths given to the spectra reader, the check of
    [os.path.isfile] runs over all the paths before a file is opened: when
    one of the paths is missing or is not a regular file, the error is
    printed for it and no file of the batch is processed, the existing ones
    included. *)
Theorem missing_file_stops_batch
  (fs : string -> option (list (gmap string pyval))) (timer : nat -> float)
  (files : list string) :
  (exists file, In file files /\ fs file = None) ->
  exists missing,
    In missing files /\ fs missing = None
    /\ main fs timer files = ([Stdout (ErrNotAFile missing)], Ok tt)
    /\ Forall (fun e => is_open e = false) (trace (main fs timer files)).
Proof.
  intros (file & Hin & Hfile).
  destruct (first_missing_some
              (fun file => bool_decide (is_Some (fs file))) files)
    as (missing & Hm & Hin' & Hmiss).
  { exists file. split; [exact Hin|]. rewrite Hfile.
    apply bool_decide_eq_false_2. now intros [? ?]. }
  exists missing. unfold main. rewrite Hm.
  split; [exact Hin'|]. split.
  - apply bool_decide_eq_false in Hmiss.
    destruct (fs missing) eqn:Hf; [|reflexivity].
    exfalso. apply Hmiss. eauto.
  - split; [reflexivity|]. repeat constructor.
Qed.

Lemma missing_file_stops_batch_witness :
  exists missing,
    In missing ["a.mzML"; "missing.mzML"; "c.mzML"]
    /\ Sample.fs missing = None
    /\ main Sample.fs (fun _ => 0%float) ["a.mzML"; "missing.mzML"; "c.mzML"]
       = ([Stdout (ErrNotAFile missing)], Ok tt)
    /\ Forall (fun e => is_open e = false)
         (trace (main Sample.fs (fun _ => 0%float)
                   ["a.mzML"; "missing.mzML"; "c.mzML"])).
Proof.
  apply (missing_file_stops_batch Sample.fs (fun _ => 0%float)
           ["a.mzML"; "missing.mzML"; "c.mzML"]).
  exists "missing.mzML". split; [right; left; reflexivity | reflexivity].
Defined.

(** ** Further properties of the identification reader *)

Section IdentificationRuns.

Lemma decode_name_rejected (psm : gmap string pyval) (name : string) :
  name_rejected psm name ->
  decode_spectrum_name psm = ([Stdout (ErrParseName name)], Raise SystemExit).
Proof.
  intros (charge & (Hpep & Hcharge & Hname) & Hm).
  unfold decode_spectrum_name. unfold peptide_path in Hpep.
  destruct (py_path (PyDict psm) [KStr "search_hit"; KInt 0; KStr "peptide"])
    as [sequence|]; [|discriminate].
  io_ok. rewrite (dict_getitem_some _ _ _ Hcharge). io_ok.
  rewrite (dict_getitem_some _ _ _ Hname). io_ok.
  unfold match_spectrum_name. rewrite Hm. io_ok. reflexivity.
Qed.

(** A PSM at which the loop prints a line and exits ends the run there,
    whatever was buffered. *)
Lemma exit_at_psm (pepxml_file : string)
  (pre post : list (gmap string pyval)) (psm : gmap string pyval)
  (l : line) (t0 t1 : float) :
  (forall st, psm_body st psm = ([Stdout l], Raise SystemExit)) ->
  let run := read_psms pepxml_file (pre ++ psm :: post) t0 t1 in
  Forall (fun e => is_to_csv e = false) (trace run)
  /\ (exists e, outcome run = Raise e)
  /\ (forall tr st,
        for_each psm_body pre initial_state = (tr, Ok st) ->
        length (rows st) = length pre
        /\ run = ([Open pepxml_file
                     (bool_decide (is_Some (re_search gz_re pepxml_file)));
                   Stdout l],
                  Raise SystemExit)).
Proof.
  intros Hexit run. subst run.
  destruct (for_each psm_body (pre ++ psm :: post) initial_state)
    as [tr [st|e]] eqn:Hloop.
  - exfalso.
    destruct (for_each_ok_elem psm_body _ _ _ _ psm Hloop)
      as (st0 & tr0 & st1 & Hbody).
    + apply in_or_app. right. now left.
    + rewrite Hexit in Hbody. discriminate.
  - rewrite (read_psms_loop_raise _ _ _ _ _ _ Hloop).
    split; [|split].
    + constructor; [reflexivity|].
      pose proof (for_each_trace psm_body (fun e => is_stdout e = true)
                    (pre ++ psm :: post) initial_state psm_body_prints) as Hp.
      rewrite Hloop in Hp. unfold trace in *. simpl in *.
      eapply Forall_impl; [exact Hp|]. now intros [].
    + eauto.
    + intros tr' st Hpre.
      rewrite for_each_app, Hpre, bind_pair, for_each_cons in Hloop.
      rewrite Hexit, bind_pair in Hloop.
      apply psm_loop_ok with (n := 0) in Hpre as (-> & Hlen & _);
        [|reflexivity].
      unfold trace, outcome in Hloop. simpl in Hloop.
      injection Hloop as <- <-. split; [exact Hlen | reflexivity].
Qed.

(** X1: for every input stream that holds a PSM whose spectrum name the
    pattern refuses, the run ends with an exception and never writes the
    table; and when the PSMs in front of it went through the loop, the run
    ends at that PSM with the line "Failed to parse spectrum name" and
    [exit()]: the record is not skipped, and the rows buffered before it
    are not written. *)
Theorem name_format_error_writes_nothing (pepxml_file : string)
  (pre post : list (gmap string pyval)) (psm : gmap string pyval)
  (name : string) (t0 t1 : float) :
  name_rejected psm name ->
  let run := read_psms pepxml_file (pre ++ psm :: post) t0 t1 in
  Forall (fun e => is_to_csv e = false) (trace run)
  /\ (exists e, outcome run = Raise e)
  /\ (forall tr st,
        for_each psm_body pre initial_state = (tr, Ok st) ->
        length (rows st) = length pre
        /\ run = ([Open pepxml_file
                     (bool_decide (is_Some (re_search gz_re pepxml_file)));
                   Stdout (ErrParseName name)],
                  Raise SystemExit)).
Proof.
  intros Hrej. apply exit_at_psm. intros st. unfold psm_body.
  now rewrite (decode_name_rejected _ _ Hrej).
Qed.

Lemma name_format_error_writes_nothing_witness :
  let run :=
    read_psms "interact.pep.xml"
      ([Sample.psm_of "run01.00122.00122.2" 2 []]
       ++ Sample.psm_of "run01.00123.2" 2 [] :: []) 1 3 in
  Forall (fun e => is_to_csv e = false) (trace run)
  /\ (exists e, outcome run = Raise e)
  /\ run = ([Open "interact.pep.xml" false;
             Stdout (ErrParseName "run01.00123.2")],
            Raise SystemExit).
Proof.
  destruct (name_format_error_writes_nothing "interact.pep.xml"
              [Sample.psm_of "run01.00122.00122.2" 2 []] []
              (Sample.psm_of "run01.00123.2" 2 [])
              "run01.00123.2" 1 3) as (Hcsv & Hexn & Hrun).
  - exists (PyInt 2). repeat split.
  - split; [exact Hcsv|]. split; [exact Hexn|].
    apply (Hrun [] {| rows := [[PyStr "00122"; PyNone]];
                      psm_number := 1;
                      stats := <["n_psms" := 1]> (stats initial_state) |}).
    vm_compute. reflexivity.
Defined.

(** The loop over PSMs that all pass: one row for each, in the order of the
    input. *)
Lemma psm_loop_rows (reader : list (gmap string pyval)) :
  forall (table : list (list pyval)) (st : state) (n : Z),
  Forall2 row_for reader table -> stats st !! "n_psms" = Some n ->
  for_each psm_body reader st
  = ([], Ok {| rows := rows st ++ table;
               psm_number := psm_number st + Z.of_nat (length reader);
               stats := <["n_psms" := n + Z.of_nat (length reader)]> (stats st) |}).
Proof.
  induction reader as [|psm reader IH]; intros table st n Hrows Hn.
  - apply Forall2_nil_inv_l in Hrows as ->. rewrite for_each_nil.
    destruct st as [r p s]. cbn [rows psm_number stats length] in *.
    rewrite app_nil_r, !Z.add_0_r, insert_id by exact Hn. reflexivity.
  - apply Forall2_cons_inv_l in Hrows as (row & table' & Hrow & Hrows & ->).
    destruct Hrow as (name & scan & results & Hv & Hres & Hwf & ->).
    rewrite for_each_cons, (psm_body_validated _ _ _ _ _ _ Hv Hres Hwf Hn).
    io_ok. rewrite (IH table' _ (n + 1) Hrows) by apply lookup_insert_eq.
    cbn [rows psm_number stats length].
    rewrite insert_insert_eq, <- app_assoc. do 3 f_equal; [lia|].
    f_equal. lia.
Qed.

(** X2: when the file exists, every PSM of it passes the name and charge
    checks with well-formed analysis results, and the elapsed time is not
    zero, [main] writes one table, to [<filename>.tsv], under the header
    [scan_number, probability], with one row for each PSM in the order of
    the input: no row is filtered by a probability threshold and the rows
    are not sorted. *)
Theorem main_writes_table (fs : string -> option (list (gmap string pyval)))
  (filename : string) (reader : list (gmap string pyval))
  (table : list (list pyval)) (t0 t1 : float) (per_sec : float) :
  fs filename = Some reader ->
  Forall2 row_for reader table ->
  truediv_int_float (Z.of_nat (length reader)) (PrimFloat.sub t1 t0)
  = Ok per_sec ->
  PepXml.main fs t0 t1 filename
  = ([Open filename (bool_decide (is_Some (re_search gz_re filename)));
      Close filename;
      ToCsv {| tsv_filename := filename +:+ ".tsv";
               tsv_columns := ["scan_number"; "probability"];
               tsv_rows := table |}],
     Ok tt).
Proof.
  intros Hfs Hrows Hper. unfold PepXml.main, read_psms. rewrite Hfs.
  rewrite (psm_loop_rows reader table initial_state 0 Hrows eq_refl). io_ok.
  cbn [rows stats]. unfold stats_get. rewrite lookup_insert_eq. io_ok.
  rewrite Z.add_0_l, Hper. io_ok. reflexivity.
Qed.

Lemma main_writes_table_witness :
  PepXml.main
    (fun _ => Some [Sample.psm_of "run01.00124.00124.3" 3
                      [Sample.prophet "peptideprophet" 0.25];
                    Sample.psm_of "run01.00123.00123.2" 2
                      [Sample.prophet "interprophet" 0.5]])
    1 3 "interact.pep.xml"
  = ([Open "interact.pep.xml" false;
      Close "interact.pep.xml";
      ToCsv {| tsv_filename := "interact.pep.xml.tsv";
               tsv_columns := ["scan_number"; "probability"];
               tsv_rows := [[PyStr "00124"; PyFloat 0.25];
                            [PyStr "00123"; PyNone]] |}],
     Ok tt).
Proof.
  apply (main_writes_table _ "interact.pep.xml"
           [Sample.psm_of "run01.00124.00124.3" 3
              [Sample.prophet "peptideprophet" 0.25];
            Sample.psm_of "run01.00123.00123.2" 2
              [Sample.prophet "interprophet" 0.5]]
           [[PyStr "00124"; PyFloat 0.25]; [PyStr "00123"; PyNone]]
           1 3 1).
  - reflexivity.
  - constructor; [|constructor; [|constructor]].
    + exists "run01.00124.00124.3", "00124",
        [Sample.prophet "peptideprophet" 0.25].
      split; [exists (PyInt 3), "run01", "00124", "3", 3; repeat split|].
      split; [reflexivity|]. split; [repeat constructor | reflexivity].
    + exists "run01.00123.00123.2", "00123",
        [Sample.prophet "interprophet" 0.5].
      split; [exists (PyInt 2), "run01", "00123", "2", 2; repeat split|].
      split; [reflexivity|]. split; [repeat constructor | reflexivity].
  - reflexivity.
Defined.

(** X3: [main] never writes a partial table.  Whenever a run writes a
    table, the file exists, the loop went through every PSM of it, the
    table is the last action of the run, it goes to [<filename>.tsv] under
    the header [scan_number, probability], it has as many rows as the file
    has PSMs, and the elapsed time was not zero. *)
Theorem table_only_when_complete
  (fs : string -> option (list (gmap string pyval))) (filename : string)
  (t0 t1 : float) (t : tsv) :
  In (ToCsv t) (trace (PepXml.main fs t0 t1 filename)) ->
  exists reader,
    fs filename = Some reader
    /\ PepXml.main fs t0 t1 filename
       = ([Open filename (bool_decide (is_Some (re_search gz_re filename)));
           Close filename; ToCsv t], Ok tt)
    /\ tsv_filename t = filename +:+ ".tsv"
    /\ tsv_columns t = ["scan_number"; "probability"]
    /\ length (tsv_rows t) = length reader
    /\ float_is_zero (PrimFloat.sub t1 t0) = false.
Proof.
  unfold PepXml.main. destruct (fs filename) as [reader|].
  2:{ intros [H|[]]. discriminate. }
  intros Hin. exists reader. split; [reflexivity|].
  destruct (for_each psm_body reader initial_state) as [tr [st|e]] eqn:Hloop.
  - destruct (psm_loop_ok reader _ _ _ 0 Hloop eq_refl) as (-> & Hlen & Hcount).
    unfold read_psms in *. rewrite Hloop in *.
    rewrite quiet_ok_bind in *. unfold stats_get in *. rewrite Hcount in *.
    rewrite lift_ok_bind in *.
    destruct (truediv_int_float _ _) as [per_sec|e] eqn:Hdiv.
    + rewrite lift_ok_bind in *.
      destruct Hin as [H|[H|[H|[]]]]; try discriminate.
      injection H as <-. repeat split; [exact Hlen|].
      unfold truediv_int_float in Hdiv.
      destruct (float_of_int _); [|discriminate]. cbn [mbind result_bind] in Hdiv.
      now destruct (float_is_zero _).
    + destruct Hin as [H|[H|[]]]; discriminate.
  - exfalso. rewrite (read_psms_loop_raise _ _ _ _ _ _ Hloop) in Hin.
    destruct Hin as [H|Hin]; [discriminate|].
    pose proof (for_each_trace psm_body (fun e => is_stdout e = true)
                  reader initial_state psm_body_prints) as Hp.
    rewrite Hloop in Hp. unfold trace in Hp. cbn [fst] in Hp.
    rewrite Forall_forall in Hp. apply list_elem_of_In in Hin.
    apply Hp in Hin. discriminate.
Qed.

Lemma table_only_when_complete_witness :
  exists reader,
    (fun _ : string => Some [Sample.psm_of "run01.00123.00123.2" 2 []])
      "interact.pep.xml" = Some reader
    /\ PepXml.main
         (fun _ => Some [Sample.psm_of "run01.00123.00123.2" 2 []])
         1 3 "interact.pep.xml"
       = ([Open "interact.pep.xml"
             (bool_decide (is_Some (re_search gz_re "interact.pep.xml")));
           Close "interact.pep.xml";
           ToCsv {| tsv_filename := "interact.pep.xml.tsv";
                    tsv_columns := ["scan_number"; "probability"];
                    tsv_rows := [[PyStr "00123"; PyNone]] |}], Ok tt)
    /\ "interact.pep.xml.tsv" = "interact.pep.xml" +:+ ".tsv"
    /\ ["scan_number"; "probability"] = ["scan_number"; "probability"]
    /\ length [[PyStr "00123"; PyNone]] = length reader
    /\ float_is_zero (PrimFloat.sub 3 1) = false.
Proof.
  apply (table_only_when_complete
           (fun _ => Some [Sample.psm_of "run01.00123.00123.2" 2 []])
           "interact.pep.xml" 1 3
           {| tsv_filename := "interact.pep.xml.tsv";
              tsv_columns := ["scan_number"; "probability"];
              tsv_rows := [[PyStr "00123"; PyNone]] |}).
  vm_compute. right. right. left. reflexivity.
Defined.

(** The name decomposition prints nothing, or prints one of the two error
    lines and exits. *)
Lemma decode_cases_line (psm : gmap string pyval) :
  trace (decode_spectrum_name psm) = []
  \/ exists l, is_error_line l = true
               /\ decode_spectrum_name psm = ([Stdout l], Raise SystemExit).
Proof.
  unfold decode_spectrum_name.
  do 4 (io_case; [|now left]).
  match goal with |- context [match ?p with pair _ _ => _ end] =>
    destruct p as [name [m|]] end.
  - do 5 (io_case; [|now left]).
    destruct (negb _); [|now left].
    right. eexists. split; [|reflexivity]. reflexivity.
  - right. eexists. split; [|reflexivity]. reflexivity.
Qed.

Lemma psm_loop_cases (reader : list (gmap string pyval)) : forall st : state,
  trace (for_each psm_body reader st) = []
  \/ exists l, is_error_line l = true
               /\ for_each psm_body reader st = ([Stdout l], Raise SystemExit).
Proof.
  induction reader as [|psm reader IH]; intros st; [now left|].
  rewrite for_each_cons.
  destruct (psm_body st psm) as [tr [st'|e]] eqn:Hbody.
  - apply psm_body_ok_inv in Hbody as (-> & _). rewrite quiet_ok_bind. apply IH.
  - unfold psm_body in Hbody.
    destruct (decode_cases_line psm) as [Hq|(l & Hl & Hd)].
    + left. destruct (decode_spectrum_name psm) as [tr0 [scan|e0]];
        unfold trace in Hq; cbn [fst] in Hq; subst tr0.
      * rewrite quiet_ok_bind in Hbody.
        assert (trace (@pair (list event) (result state) tr (Raise e)) = [])
          as Htr; [|unfold trace in Htr; cbn [fst] in Htr; now subst tr].
        rewrite <- Hbody. clear Hbody.
        do 3 (io_case; [|reflexivity]).
        match goal with |- context [match ?p with pair _ _ => _ end] =>
          destruct p as [pp ip] end.
        io_case; reflexivity.
      * now injection Hbody as <- <-.
    + right. exists l. split; [exact Hl|]. rewrite Hd in Hbody.
      now injection Hbody as <- <-.
Qed.

(** X4: a run of [read_psms] prints on the standard output only to give
    up.  Whenever a line is printed, it is one of the two error lines
    (charge mismatch, name not parsed), it is the only line of the run, it
    comes right after the opening of the file, and the run ends there with
    [exit()], nothing written. *)
Theorem error_line_ends_run (pepxml_file : string)
  (reader : list (gmap string pyval)) (t0 t1 : float) (l : line) :
  In (Stdout l) (trace (read_psms pepxml_file reader t0 t1)) ->
  is_error_line l = true
  /\ read_psms pepxml_file reader t0 t1
     = ([Open pepxml_file (bool_decide (is_Some (re_search gz_re pepxml_file)));
         Stdout l], Raise SystemExit).
Proof.
  intros Hin.
  destruct (psm_loop_cases reader initial_state) as [Hq|(l' & Hl & Hloop)].
  - exfalso. unfold read_psms in Hin.
    destruct (for_each psm_body reader initial_state) as [tr [st|e]];
      unfold trace in Hq; cbn [fst] in Hq; subst tr.
    + rewrite quiet_ok_bind in Hin.
      destruct (stats_get (stats st) "n_psms");
        [rewrite lift_ok_bind in Hin|].
      * destruct (truediv_int_float _ _); [rewrite lift_ok_bind in Hin|];
          repeat (destruct Hin as [Hin|Hin]; [discriminate|]); destruct Hin.
      * repeat (destruct Hin as [Hin|Hin]; [discriminate|]); destruct Hin.
    + repeat (destruct Hin as [Hin|Hin]; [discriminate|]); destruct Hin.
  - rewrite (read_psms_loop_raise _ _ _ _ _ _ Hloop) in *.
    destruct Hin as [H|[H|[]]]; [discriminate|].
    injection H as <-. auto.
Qed.

Lemma error_line_ends_run_witness :
  is_error_line (ErrParseName "run01.2") = true
  /\ read_psms "interact.pep.xml" [Sample.psm_of "run01.2" 2 []] 1 3
     = ([Open "interact.pep.xml"
           (bool_decide (is_Some (re_search gz_re "interact.pep.xml")));
         Stdout (ErrParseName "run01.2")], Raise SystemExit).
Proof.
  apply (error_line_ends_run "interact.pep.xml"
           [Sample.psm_of "run01.2" 2 []] 1 3 (ErrParseName "run01.2")).
  vm_compute. right. left. reflexivity.
Defined.

End IdentificationRuns.

(** ** The decomposition of a name inverts its composition *)

Section Decomposition.

Lemma all_chars_app (p : ascii -> bool) (a b : string) :
  all_chars p (a +:+ b) <-> all_chars p a /\ all_chars p b.
Proof.
  induction a as [|c a IH]; [rewrite append_nil; cbn; tauto|].
  rewrite append_cons. cbn [all_chars]. rewrite IH. tauto.
Qed.

Lemma all_chars_impl (p q : ascii -> bool) (a : string) :
  (forall c, p c = true -> q c = true) -> all_chars p a -> all_chars q a.
Proof.
  intros Hpq. induction a as [|c a IH]; [trivial|].
  cbn [all_chars]. intros [Hc Ha]. auto.
Qed.

Lemma digit_no_dot (c : ascii) : is_digit c = true -> no_dot c = true.
Proof.
  unfold no_dot. destruct (Ascii.eqb c ".") eqn:Hc; [|reflexivity].
  apply Ascii.eqb_eq in Hc. subst c. discriminate.
Qed.

(** A text without a dot does not hold a dot. *)
Lemma no_dot_inside (a b : string) : ~ all_chars no_dot (a +:+ "." +:+ b).
Proof.
  intros H. apply all_chars_app in H as [_ H].
  change ("." +:+ b) with (String "." b) in H. destruct H as [H _].
  discriminate H.
Qed.

(** The last dot of a text splits it in one way only. *)
Lemma split_at_last_dot (a : string) : forall a' x x' : string,
  a +:+ "." +:+ x = a' +:+ "." +:+ x' ->
  all_chars no_dot x -> all_chars no_dot x' -> a = a' /\ x = x'.
Proof.
  induction a as [|c a IH]; intros [|c' a'] x x' H Hx Hx'.
  - change (String "." x = String "." x') in H. injection H as H. auto.
  - exfalso. change (String "." x = String c' (a' +:+ "." +:+ x')) in H.
    injection H as _ H. subst x. now apply no_dot_inside in Hx.
  - exfalso. change (String c (a +:+ "." +:+ x) = String "." x') in H.
    injection H as _ H. subst x'. now apply no_dot_inside in Hx'.
  - rewrite !append_cons in H. injection H as Hc H. subst c'.
    destruct (IH _ _ _ H Hx Hx') as [Ha Hx0]. subst. auto.
Qed.

(** When the continuation accepts the empty repetition, the repetition
    finds a match. *)
Lemma star_fallback {A} (p : ascii -> bool) (s : string)
  (k : string -> string -> option A) :
  is_Some (k EmptyString s) -> is_Some (star p s k).
Proof.
  intros Hk. destruct s as [|c s]; [exact Hk|]. cbn [star].
  destruct (p c); [|exact Hk].
  destruct (star p s _); [eauto | exact Hk].
Qed.

Lemma star_complete {A} (p : ascii -> bool) (m : string) :
  forall (rest : string) (k : string -> string -> option A),
  all_chars p m -> is_Some (k m rest) -> is_Some (star p (m +:+ rest) k).
Proof.
  induction m as [|c m IH]; intros rest k Hm Hk.
  - rewrite append_nil. now apply star_fallback.
  - destruct Hm as [Hc Hm]. rewrite append_cons. cbn [star]. rewrite Hc.
    destruct (IH rest (fun m0 rest0 => k (String c m0) rest0) Hm Hk) as [r ->].
    eauto.
Qed.

(** The matcher finds a match wherever the pattern has one. *)
Lemma run_complete {A} (r : regex) :
  forall (m rest : string) (gs gs' : list string)
         (k : string -> string -> list string -> option A),
  denotes r m rest gs gs' -> is_Some (k m rest gs') ->
  is_Some (run r (m +:+ rest) gs k).
Proof.
  induction r as [a|a|r IH|r1 IH1 r2 IH2|]; intros m rest gs gs' k Hd Hk;
    cbn [run denotes] in *.
  - destruct Hd as (c & -> & Hc & ->). rewrite append_cons, append_nil.
    now rewrite Hc.
  - destruct Hd as (Hne & Hall & ->). destruct m as [|c m]; [congruence|].
    destruct Hall as [Hc Hall]. rewrite append_cons, Hc.
    now apply (star_complete _ m rest (fun m0 rest0 => k (String c m0) rest0 gs)).
  - destruct Hd as (gs0 & Hd & ->).
    now apply (IH m rest gs gs0 (fun m0 rest0 gs1 => k m0 rest0 (gs1 ++ [m0]))).
  - destruct Hd as (m1 & m2 & gs1 & -> & Hd1 & Hd2).
    rewrite append_assoc.
    apply (IH1 m1 (m2 +:+ rest) gs gs1); [exact Hd1|].
    now apply (IH2 m2 rest gs1 gs').
  - destruct Hd as (-> & He & ->). rewrite append_nil, He. exact Hk.
Qed.

Lemma rejoin_split (run scan index charge tail : string) :
  rejoin run scan index charge +:+ tail
  = (run +:+ "." +:+ scan +:+ "." +:+ index) +:+ "." +:+ (charge +:+ tail).
Proof. unfold rejoin. now rewrite !append_assoc. Qed.

Lemma regroup (a b c : string) :
  a +:+ "." +:+ b +:+ "." +:+ c = (a +:+ "." +:+ b) +:+ "." +:+ c.
Proof. now rewrite !append_assoc. Qed.

Lemma not_digit_newline (d : string) :
  ~ all_chars is_digit (d +:+ newline_string).
Proof.
  intros H. apply all_chars_app in H as [_ [H _]]. discriminate H.
Qed.

(** Every match of the pattern, in full: the four groups, what they are
    made of, and the name they come from. *)
Lemma spectrum_name_re_sound_full (s : string) (m : list string) :
  re_match spectrum_name_re s = Some m ->
  exists run scan index charge tail,
    m = [run; scan; index; charge]
    /\ s = rejoin run scan index charge +:+ tail
    /\ (tail = EmptyString \/ tail = newline_string)
    /\ (run <> EmptyString /\ all_chars (atom_ok AnyChar) run)
    /\ (scan <> EmptyString /\ all_chars is_digit scan)
    /\ (index <> EmptyString /\ all_chars is_digit index)
    /\ (charge <> EmptyString /\ all_chars is_digit charge).
Proof.
  unfold re_match. intros H.
  apply run_sound in H as (m0 & rest & gs & -> & Hd & Hk).
  injection Hk as <-. unfold spectrum_name_re in Hd. cbn [denotes] in Hd.
  destruct Hd as (m1 & ? & gs1 & -> & (? & (Hn1 & Hm1 & ->) & ->) & Hd).
  destruct Hd as (? & ? & ? & -> & (? & -> & Hdot1 & ->) & Hd).
  destruct Hd as (m2 & ? & ? & -> & (? & (Hn2 & Hm2 & ->) & ->) & Hd).
  destruct Hd as (? & ? & ? & -> & (? & -> & Hdot2 & ->) & Hd).
  destruct Hd as (m3 & ? & ? & -> & (? & (Hn3 & Hm3 & ->) & ->) & Hd).
  destruct Hd as (? & ? & ? & -> & (? & -> & Hdot3 & ->) & Hd).
  destruct Hd as (m4 & ? & ? & -> & (? & (Hn4 & Hm4 & ->) & ->) & (-> & He & ->)).
  apply Ascii.eqb_eq in Hdot1, Hdot2, Hdot3. subst.
  exists m1, m2, m3, m4, rest.
  split; [reflexivity|]. split.
  - unfold rejoin. rewrite append_empty_r, !append_assoc, !append_cons, !append_nil.
    reflexivity.
  - split; [now apply at_end_cases | auto 10].
Qed.

(** Digits in front of an optional final newline are read in one way. *)
Lemma digits_before_tail (d : string) : forall d' t t' : string,
  d +:+ t = d' +:+ t' ->
  all_chars is_digit d -> all_chars is_digit d' ->
  (t = EmptyString \/ t = newline_string) ->
  (t' = EmptyString \/ t' = newline_string) ->
  d = d'.
Proof.
  induction d as [|c d IH]; intros [|c' d'] t t' H Hd Hd' Ht Ht'.
  - reflexivity.
  - exfalso. rewrite append_nil, append_cons in H. destruct Hd' as [Hc _].
    destruct Ht as [-> | ->]; [discriminate|].
    injection H as <- _. discriminate Hc.
  - exfalso. rewrite append_nil, append_cons in H. destruct Hd as [Hc _].
    destruct Ht' as [-> | ->]; [discriminate|].
    injection H as -> _. discriminate Hc.
  - rewrite !append_cons in H. injection H as Hc H. subst c'.
    destruct Hd as [_ Hd], Hd' as [_ Hd'].
    now rewrite (IH _ _ _ H Hd Hd' Ht Ht').
Qed.

(** The pattern accepts every name made of a run name, three numeric
    fields and, at most, a final newline, and gives its fields back. *)
Lemma match_rejoin (run scan index charge tail : string) :
  run <> EmptyString -> all_chars (atom_ok AnyChar) run ->
  scan <> EmptyString -> all_chars is_digit scan ->
  index <> EmptyString -> all_chars is_digit index ->
  charge <> EmptyString -> all_chars is_digit charge ->
  tail = EmptyString \/ tail = newline_string ->
  re_match spectrum_name_re (rejoin run scan index charge +:+ tail)
  = Some [run; scan; index; charge].
Proof.
  intros Hr Hrun Hs Hscan Hi Hindex Hc Hcharge Htail.
  assert (is_Some (re_match spectrum_name_re
                     (rejoin run scan index charge +:+ tail)))
    as [m Hm].
  { unfold re_match.
    apply (run_complete spectrum_name_re _ tail []
             [run; scan; index; charge]); [|eauto].
    unfold spectrum_name_re, rejoin. cbn [denotes].
    exists run, ("." +:+ scan +:+ "." +:+ index +:+ "." +:+ charge), [run].
    split; [reflexivity|]. split; [exists []; auto|].
    exists ".", (scan +:+ "." +:+ index +:+ "." +:+ charge), [run].
    split; [reflexivity|]. split; [exists "."%char; auto|].
    exists scan, ("." +:+ index +:+ "." +:+ charge), [run; scan].
    split; [reflexivity|]. split; [exists [run]; auto|].
    exists ".", (index +:+ "." +:+ charge), [run; scan].
    split; [reflexivity|]. split; [exists "."%char; auto|].
    exists index, ("." +:+ charge), [run; scan; index].
    split; [reflexivity|]. split; [exists [run; scan]; auto|].
    exists ".", charge, [run; scan; index].
    split; [reflexivity|]. split; [exists "."%char; auto|].
    exists charge, EmptyString, [run; scan; index; charge].
    split; [now rewrite append_empty_r|]. split; [exists [run; scan; index]; auto|].
    split; [reflexivity|]. split; [|reflexivity].
    destruct Htail as [-> | ->]; reflexivity. }
  rewrite Hm. f_equal.
  apply spectrum_name_re_sound in Hm
    as (g1 & g2 & g3 & g4 & tail' & -> & Heq & Htail' & Hg2 & Hg3 & Hg4).
  rewrite !rejoin_split in Heq.
  assert (forall d t, all_chars is_digit d ->
                      t = EmptyString \/ t = newline_string ->
                      all_chars no_dot (d +:+ t)) as Hnd.
  { intros d t Hd Ht. apply all_chars_app. split.
    - eapply all_chars_impl; [apply digit_no_dot | exact Hd].
    - destruct Ht as [-> | ->]; repeat constructor. }
  apply split_at_last_dot in Heq as [Heq Hlast]; [| now apply Hnd ..].
  apply digits_before_tail in Hlast; [| assumption ..]. subst g4.
  rewrite (regroup run scan index), (regroup g1 g2 g3) in Heq.
  apply split_at_last_dot in Heq as [Heq Hthird];
    [| eapply all_chars_impl; [apply digit_no_dot | assumption] ..].
  apply split_at_last_dot in Heq as [Hfirst Hsecond];
    [| eapply all_chars_impl; [apply digit_no_dot | assumption] ..].
  now subst.
Qed.

(** X5: the decomposition inverts the composition.  For every run name
    that is not empty and holds no newline (dots are allowed in it) and every
    non-empty scan, index and charge made of digits, [re.match] on
    [<run>.<scan>.<index>.<charge>] succeeds and its four groups are the run
    name, the scan, the index and the charge. *)
Theorem decompose_rejoin (run scan index charge : string) :
  run <> EmptyString -> all_chars (atom_ok AnyChar) run ->
  scan <> EmptyString -> all_chars is_digit scan ->
  index <> EmptyString -> all_chars is_digit index ->
  charge <> EmptyString -> all_chars is_digit charge ->
  re_match spectrum_name_re (rejoin run scan index charge)
  = Some [run; scan; index; charge].
Proof.
  intros. rewrite <- (append_empty_r (rejoin run scan index charge)).
  apply match_rejoin; auto.
Qed.

Lemma decompose_rejoin_witness :
  re_match spectrum_name_re (rejoin "QEx.2019.run01" "00123" "00123" "2")
  = Some ["QEx.2019.run01"; "00123"; "00123"; "2"].
Proof.
  apply decompose_rejoin; try discriminate; repeat constructor.
Defined.

(** X7: the names the pattern accepts, exactly.  [re.match] yields the
    groups [run], [scan], [index] and [charge] for a name if and only if the
    name is [<run>.<scan>.<index>.<charge>], followed by nothing or by one
    newline, where the run name is not empty and holds no newline, and the
    scan, the index and the charge are non-empty runs of digits. *)
Theorem accepted_names (s run scan index charge : string) :
  re_match spectrum_name_re s = Some [run; scan; index; charge]
  <-> (exists tail, s = rejoin run scan index charge +:+ tail
                    /\ (tail = EmptyString \/ tail = newline_string))
      /\ (run <> EmptyString /\ all_chars (atom_ok AnyChar) run)
      /\ (scan <> EmptyString /\ all_chars is_digit scan)
      /\ (index <> EmptyString /\ all_chars is_digit index)
      /\ (charge <> EmptyString /\ all_chars is_digit charge).
Proof.
  split.
  - intros H. apply spectrum_name_re_sound_full in H
      as (g1 & g2 & g3 & g4 & tail & [= <- <- <- <-] & -> & Ht & H).
    split; [eauto | exact H].
  - intros ((tail & -> & Ht) & (? & ?) & (? & ?) & (? & ?) & (? & ?)).
    now apply match_rejoin.
Qed.

End Decomposition.

(** ** The outcomes of the name step *)

Section NameStep.

Lemma is_digit_plain (c : ascii) :
  is_digit c = true ->
  is_space c = false /\ Ascii.eqb c "-" = false /\ Ascii.eqb c "+" = false.
Proof.
  destruct c as [b0 b1 b2 b3 b4 b5 b6 b7].
  destruct b0, b1, b2, b3, b4, b5, b6, b7; intros H;
    first [discriminate H | repeat split].
Qed.

Lemma all_chars_Forall (p : ascii -> bool) (s : string) :
  all_chars p s -> Forall (fun c => p c = true) (list_ascii_of_string s).
Proof.
  induction s as [|c s IH]; cbn [all_chars list_ascii_of_string].
  - constructor.
  - intros [Hc Hs]. constructor; auto.
Qed.

Lemma length_list_ascii (s : string) :
  length (list_ascii_of_string s) = String.length s.
Proof. induction s as [|c s IH]; cbn; [reflexivity | now rewrite IH]. Qed.

Lemma length_append (a b : string) :
  String.length (a +:+ b) = (String.length a + String.length b)%nat.
Proof.
  induction a as [|c a IH]; [reflexivity|].
  rewrite append_cons. cbn [String.length]. now rewrite IH.
Qed.

Lemma strip_digits (l : list ascii) :
  l <> [] -> Forall (fun c => is_digit c = true) l -> strip l = l.
Proof.
  intros Hne Hall. unfold strip.
  assert (lstrip l = l) as ->.
  { destruct l as [|c l]; [congruence|]. apply Forall_cons in Hall as [Hc _].
    cbn [lstrip]. now destruct (is_digit_plain c Hc) as (-> & _). }
  apply List.Forall_rev in Hall.
  destruct (rev l) as [|d r] eqn:Hrev.
  - apply (f_equal (@length ascii)) in Hrev. rewrite length_rev in Hrev.
    destruct l; [congruence | discriminate].
  - apply Forall_cons in Hall as [Hd _]. cbn [lstrip].
    destruct (is_digit_plain d Hd) as (-> & _).
    now rewrite <- Hrev, rev_involutive.
Qed.

Lemma digits_all (l : list ascii) : forall (acc : Z) (n : nat),
  Forall (fun c => is_digit c = true) l ->
  exists z, digits l acc n false = Some (z, (n + length l)%nat).
Proof.
  induction l as [|c l IH]; intros acc n Hall; cbn [digits length].
  - exists acc. now rewrite Nat.add_0_r.
  - apply Forall_cons in Hall as [Hc Hall]. rewrite Hc.
    destruct (IH (10 * acc + digit_value c) (S n) Hall) as [z Hz].
    exists z. rewrite Hz. do 2 f_equal. lia.
Qed.

(** [int()] reads every non-empty text of at most 4300 digits. *)
Lemma int_of_digits (s : string) :
  s <> EmptyString -> all_chars is_digit s ->
  (String.length s <= int_max_str_digits)%nat ->
  exists z, py_int (PyStr s) = Ok z.
Proof.
  intros Hne Hall Hlen. cbn [py_int]. unfold int_of_string.
  apply all_chars_Forall in Hall. rewrite <- length_list_ascii in Hlen.
  rewrite strip_digits; [|destruct s; [congruence | discriminate] | exact Hall].
  destruct (list_ascii_of_string s) as [|c l] eqn:Hl.
  { destruct s; [congruence | discriminate]. }
  pose proof Hall as Hall'. apply Forall_cons in Hall' as [Hc _].
  destruct (is_digit_plain c Hc) as (_ & -> & ->).
  unfold unsigned_of_string. rewrite Hc.
  destruct (digits_all (c :: l) 0 0 Hall) as [z ->].
  exists z. rewrite Nat.add_0_l.
  destruct (int_max_str_digits <? length (c :: l))%nat eqn:Hlim;
    [|reflexivity].
  apply Nat.ltb_lt in Hlim. lia.
Qed.

(** The charge of a match is a non-empty run of digits, no longer than
    the name. *)
Lemma spectrum_name_re_groups (s : string) (run scan index charge : string) :
  re_match spectrum_name_re s = Some [run; scan; index; charge] ->
  charge <> EmptyString /\ all_chars is_digit charge
  /\ (String.length charge <= String.length s)%nat.
Proof.
  intros Hm.
  apply spectrum_name_re_sound_full in Hm
    as (g1 & g2 & g3 & g4 & tail & [= <- <- <- <-] & -> & _ & _ & _ & _
        & Hne & Hd).
  split; [exact Hne|]. split; [exact Hd|].
  unfold rejoin. rewrite !length_append. lia.
Qed.

(** X6: the name step of a PSM has three outcomes and no other.  For
    every PSM with a peptide, an assumed charge that [int()] reads as [c]
    and a spectrum name of at most 4300 characters: the pattern refuses the
    name, and the step prints the parse error and exits; or the charge of
    the name is [c], and the step yields the scan number; or it is another
    number, and the step prints the charge mismatch and exits.  [int()] of
    the charge of the name never fails. *)
Theorem name_step_outcomes (psm : gmap string pyval) (name : string)
  (charge : pyval) (c : Z) :
  psm_fields psm name charge -> py_int charge = Ok c ->
  (String.length name <= int_max_str_digits)%nat ->
  (re_match spectrum_name_re name = None
   /\ decode_spectrum_name psm
      = ([Stdout (ErrParseName name)], Raise SystemExit))
  \/ (exists run scan index chg,
        re_match spectrum_name_re name = Some [run; scan; index; chg]
        /\ py_int (PyStr chg) = Ok c
        /\ decode_spectrum_name psm = ([], Ok scan))
  \/ (exists run scan index chg c4,
        re_match spectrum_name_re name = Some [run; scan; index; chg]
        /\ py_int (PyStr chg) = Ok c4 /\ c4 <> c
        /\ decode_spectrum_name psm
           = ([Stdout (ErrChargeMismatch name charge)], Raise SystemExit)).
Proof.
  intros Hf Hc Hlen.
  destruct (re_match spectrum_name_re name) as [m|] eqn:Hm.
  2:{ left. split; [reflexivity|]. apply decode_name_rejected. now exists charge. }
  right. pose proof Hm as Hs.
  apply spectrum_name_re_sound in Hs
    as (run & scan & index & chg & tail & -> & _).
  destruct (spectrum_name_re_groups _ _ _ _ _ Hm) as (Hne & Hd & Hle).
  destruct (int_of_digits chg Hne Hd) as [c4 Hc4]; [lia|].
  destruct (Z.eq_dec c4 c) as [->|Hneq].
  - left. exists run, scan, index, chg. repeat split; [exact Hc4|].
    apply decode_validated with (name := name).
    exists charge, run, index, chg, c. auto.
  - right. exists run, scan, index, chg, c4. repeat split; auto.
    apply decode_charge_differs.
    exists run, scan, index, chg, c, c4. repeat split; auto; apply Hf.
Qed.

Lemma name_step_outcomes_witness :
  let psm := Sample.psm_of "run01.00123.00123.02" 2 [] in
  (re_match spectrum_name_re "run01.00123.00123.02" = None
   /\ decode_spectrum_name psm
      = ([Stdout (ErrParseName "run01.00123.00123.02")], Raise SystemExit))
  \/ (exists run scan index chg,
        re_match spectrum_name_re "run01.00123.00123.02"
        = Some [run; scan; index; chg]
        /\ py_int (PyStr chg) = Ok 2
        /\ decode_spectrum_name psm = ([], Ok scan))
  \/ (exists run scan index chg c4,
        re_match spectrum_name_re "run01.00123.00123.02"
        = Some [run; scan; index; chg]
        /\ py_int (PyStr chg) = Ok c4 /\ c4 <> 2
        /\ decode_spectrum_name psm
           = ([Stdout (ErrChargeMismatch "run01.00123.00123.02" (PyInt 2))],
              Raise SystemExit)).
Proof.
  apply (name_step_outcomes (Sample.psm_of "run01.00123.00123.02" 2 [])
           "run01.00123.00123.02" (PyInt 2) 2).
  - repeat split.
  - reflexivity.
  - apply Nat.leb_le. reflexivity.
Defined.

End NameStep.

(** ** The analysis results of a PSM *)

Section AnalysisResults.






End AnalysisResults.

(** ** Compressed input *)

Section Compressed.

Lemma re_search_unfold (r : regex) (s : string) :
  re_search r s =
  match re_match r s with
  | Some m => Some m
  | None => match s with
            | String _ s' => re_search r s'
            | EmptyString => None
            end
  end.
Proof. destruct s; reflexivity. Qed.

Lemma re_match_gz (s : string) :
  is_Some (re_match gz_re s)
  <-> exists tail, s = ".gz" +:+ tail
                   /\ (tail = EmptyString \/ tail = newline_string).
Proof.
  split.
  - intros [m Hm]. unfold re_match in Hm.
    apply run_sound in Hm as (m0 & rest & gs & -> & Hd & _).
    unfold gz_re in Hd. cbn [denotes] in Hd.
    destruct Hd as (? & ? & ? & -> & (? & -> & H1 & _) & Hd).
    destruct Hd as (? & ? & ? & -> & (? & -> & H2 & _) & Hd).
    destruct Hd as (? & ? & ? & -> & (? & -> & H3 & _) & (-> & He & _)).
    cbn [atom_ok] in *. apply Ascii.eqb_eq in H1, H2, H3. subst.
    exists rest. split; [reflexivity | now apply at_end_cases].
  - intros (tail & -> & [-> | ->]); vm_compute; eauto.
Qed.

Lemma re_search_gz (s : string) :
  is_Some (re_search gz_re s)
  <-> exists pre tail, s = pre +:+ ".gz" +:+ tail
                       /\ (tail = EmptyString \/ tail = newline_string).
Proof.
  split.
  - induction s as [|c s IH]; rewrite re_search_unfold; intros H.
    + destruct (re_match gz_re "") eqn:Hm; [|now destruct H].
      assert (is_Some (re_match gz_re "")) as Hs by (rewrite Hm; eauto).
      apply re_match_gz in Hs as (tail & Hs & Ht). exists "", tail. auto.
    + destruct (re_match gz_re (String c s)) eqn:Hm.
      * assert (is_Some (re_match gz_re (String c s))) as Hs
          by (rewrite Hm; eauto).
        apply re_match_gz in Hs as (tail & Hs & Ht). exists "", tail. auto.
      * destruct (IH H) as (pre & tail & -> & Ht).
        exists (String c pre), tail. auto.
  - intros (pre & tail & -> & Ht).
    induction pre as [|c pre IH]; rewrite re_search_unfold.
    + destruct (proj2 (re_match_gz (".gz" +:+ tail))) as [m Hm]; [eauto|].
      rewrite append_nil, Hm. eauto.
    + rewrite append_cons.
      destruct (re_match gz_re _); [eauto | exact IH].
Qed.

Lemma substring_full (s : string) : substring 0 (String.length s) s = s.
Proof. induction s as [|c s IH]; cbn; [reflexivity | now rewrite IH]. Qed.

Lemma substring_skip (pre s : string) (m : nat) :
  substring (String.length pre) m (pre +:+ s) = substring 0 m s.
Proof.
  induction pre as [|c pre IH]; [reflexivity|].
  rewrite append_cons. cbn [String.length substring]. exact IH.
Qed.

Lemma substring_split (s : string) : forall i : nat,
  (i <= String.length s)%nat ->
  s = substring 0 i s +:+ substring i (String.length s - i) s.
Proof.
  induction s as [|c s IH]; intros [|i] Hi; cbn [String.length] in *.
  - reflexivity.
  - lia.
  - cbn [substring]. rewrite append_nil.
    change (String.length s - 0)%nat with (String.length s).
    change (S (String.length s) - 0)%nat with (S (String.length s)).
    cbn [substring]. now rewrite substring_full.
  - cbn [substring Nat.sub]. rewrite append_cons. f_equal. apply IH. lia.
Qed.

Lemma endswith_iff (s suffix : string) :
  endswith s suffix = true <-> exists pre, s = pre +:+ suffix.
Proof.
  unfold endswith. split.
  - intros H. apply andb_prop in H as [Hle Heq].
    apply Nat.leb_le in Hle. apply String.eqb_eq in Heq.
    exists (substring 0 (String.length s - String.length suffix) s).
    pose proof (substring_split s (String.length s - String.length suffix))
      as Hsplit.
    replace (String.length s - (String.length s - String.length suffix))%nat
      with (String.length suffix) in Hsplit by lia.
    rewrite Heq in Hsplit. apply Hsplit. lia.
  - intros [pre ->]. rewrite length_append.
    replace (String.length pre + String.length suffix - String.length suffix)%nat
      with (String.length pre) by lia.
    rewrite substring_skip, substring_full, String.eqb_refl.
    rewrite andb_true_r. apply Nat.leb_le. lia.
Qed.

(** X9: which files the identification reader takes for compressed.
    [read_psms] opens its input through [gzip] if and only if the file name
    ends with [.gz], or with [.gz] and one newline ([re.search] with [$]);
    any other name is opened as a plain file. *)
Theorem read_psms_gzip (pepxml_file : string)
  (reader : list (gmap string pyval)) (t0 t1 : float) :
  head (trace (read_psms pepxml_file reader t0 t1))
  = Some (Open pepxml_file true)
  <-> exists pre tail, pepxml_file = pre +:+ ".gz" +:+ tail
                       /\ (tail = EmptyString \/ tail = newline_string).
Proof.
  unfold read_psms. rewrite emit_bind. unfold trace at 1. cbn [fst head].
  rewrite <- re_search_gz. split.
  - intros [= H]. now apply bool_decide_eq_true in H.
  - intros H. now rewrite bool_decide_eq_true_2.
Qed.

(** X10: which files the spectrum reader takes for compressed.
    [read_spectra] opens its input through [gzip] if and only if the file
    name ends with [.gz] ([str.endswith]); a name that ends with [.gz] and a
    newline, which [read_psms] takes for compressed, is opened as a plain
    file. *)
Theorem read_spectra_gzip (mzml_file : string)
  (reader : list (gmap string pyval)) (t0 t1 : float) :
  (head (trace (read_spectra mzml_file reader t0 t1))
   = Some (Open mzml_file true)
   <-> exists pre, mzml_file = pre +:+ ".gz")
  /\ head (trace (read_spectra (mzml_file +:+ ".gz" +:+ newline_string)
                    reader t0 t1))
     = Some (Open (mzml_file +:+ ".gz" +:+ newline_string) false).
Proof.
  split.
  - unfold read_spectra. rewrite emit_bind. unfold trace at 1. cbn [fst head].
    rewrite <- endswith_iff. split; [now intros [= ->] | now intros ->].
  - unfold read_spectra. rewrite emit_bind. unfold trace at 1. cbn [fst head].
    do 2 f_equal.
    destruct (endswith _ ".gz") eqn:He; [|reflexivity].
    apply endswith_iff in He as [pre He]. exfalso.
    assert (forall a b : string, a +:+ ".gz" +:+ newline_string = b +:+ ".gz"
                                 -> False) as Hno.
    { clear. induction a as [|c a IH]; intros [|c' b] H.
      - discriminate H.
      - change (String "." (String "g" (String "z" newline_string))
                = String c' (b +:+ ".gz")) in H.
        injection H as _ H. destruct b as [|? [|? [|? [|? b]]]]; discriminate H.
      - change (String c (a +:+ ".gz" +:+ newline_string)
                = String "." (String "g" (String "z" ""))) in H.
        injection H as _ H.
        destruct a as [|? [|? [|? a]]]; try discriminate H.
      - rewrite !append_cons in H. injection H as _ H. eauto. }
    eapply Hno, He.
Qed.

End Compressed.

(** ** Runs of the spectrum reader *)

Section SpectraRuns.

Lemma spectra_loop_quiet (reader : list (gmap string pyval))
  (stats : gmap string Z) :
  trace (for_each spectrum_body reader stats) = [].
Proof.
  pose proof (for_each_trace spectrum_body (fun _ => False) reader stats) as H.
  destruct (trace (for_each spectrum_body reader stats)) as [|e tr];
    [reflexivity|].
  exfalso. assert (Forall (fun _ : event => False) (e :: tr)) as Hf.
  { apply H. intros st x. rewrite spectrum_body_quiet. constructor. }
  now apply Forall_cons in Hf as [Hf _].
Qed.

(** The three ways a run of [read_spectra] ends: the summary, an exception
    of the loop, an exception of the summary. *)
Lemma read_spectra_cases (mzml_file : string)
  (reader : list (gmap string pyval)) (t0 t1 : float) :
  let gz := endswith mzml_file ".gz" in
  (exists sec per_sec,
     int_of_float (PrimFloat.sub t1 t0) = Ok sec
     /\ float_is_zero (PrimFloat.sub t1 t0) = false
     /\ read_spectra mzml_file reader t0 t1
        = ([Open mzml_file gz; Close mzml_file;
            Stdout (Summary (Z.of_nat (length reader)) mzml_file sec per_sec)],
           Ok tt))
  \/ (exists e, read_spectra mzml_file reader t0 t1
                = ([Open mzml_file gz], Raise e))
  \/ (exists e, read_spectra mzml_file reader t0 t1
                = ([Open mzml_file gz; Close mzml_file], Raise e)).
Proof.
  intros gz. subst gz.
  pose proof (spectra_loop_quiet reader initial_stats) as Hq.
  destruct (spectra_loop reader) as [tr [stats|e]] eqn:Hloop;
    unfold spectra_loop in Hloop; rewrite Hloop in Hq;
    unfold trace in Hq; cbn [fst] in Hq; subst tr.
  - destruct (spectra_loop_ok reader _ _ _ 0 Hloop eq_refl) as [_ Hn].
    rewrite Z.add_0_l in Hn.
    rewrite (read_spectra_summary _ _ _ _ _ _ Hloop Hn).
    destruct (int_of_float _) as [sec|e] eqn:Hsec.
    2:{ right. right. exists e. reflexivity. }
    unfold truediv_int_float.
    destruct (float_of_int _) as [count|e].
    2:{ right. right. exists e. reflexivity. }
    cbn [mbind result_bind].
    destruct (float_is_zero _) eqn:Hz.
    + right. right. exists ZeroDivisionError. reflexivity.
    + left. exists sec, (PrimFloat.div count (PrimFloat.sub t1 t0)).
      repeat split.
  - right. left. exists e. unfold read_spectra, spectra_loop.
    now rewrite Hloop.
Qed.

(** X11: the summary of the spectrum reader is printed exactly when the
    run completes.  A run of [read_spectra] that returns has printed one
    summary line, whose count is the number of spectra of the file and whose
    seconds are [int(t1 - t0)], after opening and closing the file, and its
    elapsed time was not zero; a run that ends with an exception has printed
    no summary at all. *)
Theorem summary_iff_complete (mzml_file : string)
  (reader : list (gmap string pyval)) (t0 t1 : float) :
  match outcome (read_spectra mzml_file reader t0 t1) with
  | Ok _ =>
      exists sec per_sec,
        int_of_float (PrimFloat.sub t1 t0) = Ok sec
        /\ float_is_zero (PrimFloat.sub t1 t0) = false
        /\ read_spectra mzml_file reader t0 t1
           = ([Open mzml_file (endswith mzml_file ".gz"); Close mzml_file;
               Stdout (Summary (Z.of_nat (length reader)) mzml_file sec per_sec)],
              Ok tt)
  | Raise _ => reported (trace (read_spectra mzml_file reader t0 t1)) = []
  end.
Proof.
  destruct (read_spectra_cases mzml_file reader t0 t1)
    as [(sec & per_sec & Hsec & Hz & Hrun) | [[e Hrun] | [e Hrun]]];
    rewrite Hrun; cbn [outcome snd]; [|reflexivity..].
  rewrite <- Hrun. eauto.
Qed.

Lemma dict_getitem_ok (d : gmap string pyval) (k : string) (v : pyval) :
  dict_getitem d k = Ok v -> d !! k = Some v.
Proof.
  unfold dict_getitem, py_getitem. destruct (d !! k); [|discriminate].
  now intros [= ->].
Qed.

Lemma extract_ok_extractable (spectrum : gmap string pyval) (x : extraction) :
  extract spectrum = Ok x -> extractable spectrum = true.
Proof.
  unfold extract, extractable. fold selected_ion_mz.
  destruct (py_path (PyDict spectrum) selected_ion_mz) as [mz|]; [|discriminate].
  cbn [mbind result_bind is_ok andb].
  destruct (dict_getitem spectrum "m/z array") as [arr|] eqn:Harr;
    [|discriminate].
  cbn [mbind result_bind].
  destruct (dict_getitem spectrum "intensity array") as [intensity|] eqn:Hint;
    [|discriminate].
  cbn [mbind result_bind].
  apply dict_getitem_ok in Harr, Hint. rewrite Harr.
  unfold has_len, dict_contains. rewrite Hint.
  destruct (py_len arr); [|discriminate]. intros _.
  rewrite bool_decide_eq_true_2; eauto.
Qed.

Lemma spectrum_body_ok_processable (stats stats' : gmap string Z)
  (spectrum : gmap string pyval) (tr : list event) :
  spectrum_body stats spectrum = (tr, Ok stats') -> processable spectrum = true.
Proof.
  unfold spectrum_body, processable, examined. intros H.
  apply lift_bind_ok_inv in H as (ms_level & Hl & H).
  apply dict_getitem_ok in Hl. rewrite Hl.
  unfold dict_contains at 1. rewrite Hl, bool_decide_eq_true_2 by eauto.
  cbn [andb].
  apply bind_ok_inv in H as (tr1 & [] & tr2 & Hbranch & _ & _).
  destruct (eq_int ms_level 2 && dict_contains "m/z array" spectrum);
    [|reflexivity].
  apply lift_bind_ok_inv in Hbranch as (x & Hx & _).
  cbn [implb]. now apply extract_ok_extractable in Hx.
Qed.

(** X14: what the loop of the spectrum reader needs of a file.  The loop
    goes through a file without an exception if and only if every spectrum
    of it has an 'ms level' and, when that level is 2 and an m/z array is
    there, also has the m/z of the first selected ion of the first precursor,
    an m/z array with a length and an intensity array.  Nothing is asked of
    a spectrum of another level, and the charge state is never needed. *)
Theorem loop_completes_iff_processable (reader : list (gmap string pyval)) :
  (exists stats, spectra_loop reader = ([], Ok stats))
  <-> forallb processable reader = true.
Proof.
  split.
  - intros [stats H]. apply forallb_forall. intros spectrum Hin.
    destruct (for_each_ok_elem spectrum_body _ _ _ _ spectrum H Hin)
      as (st0 & tr0 & st1 & Hbody).
    now apply spectrum_body_ok_processable in Hbody.
  - intros H. eexists.
    apply (spectra_loop_processable reader initial_stats 0 H eq_refl).
Qed.

Lemma opened_app (tr1 tr2 : list event) :
  opened (tr1 ++ tr2) = opened tr1 ++ opened tr2.
Proof.
  induction tr1 as [|[] tr1 IH]; cbn [opened app]; [reflexivity|..];
    now rewrite ?IH.
Qed.

Lemma reported_app (tr1 tr2 : list event) :
  reported (tr1 ++ tr2) = reported tr1 ++ reported tr2.
Proof.
  induction tr1 as [|[[]| | |] tr1 IH]; cbn [reported app]; [reflexivity|..];
    now rewrite ?IH.
Qed.

Lemma process_files_cons (fs : string -> option (list (gmap string pyval)))
  (timer : nat -> float) (file : string) (rest : list string) (tick : nat) :
  process_files fs timer (file :: rest) tick =
  match fs file with
  | Some reader =>
      read_spectra file reader (timer tick) (timer (S tick));;
      process_files fs timer rest (S (S tick))
  | None => raise OSError
  end.
Proof. reflexivity. Qed.

Lemma process_files_app (fs : string -> option (list (gmap string pyval)))
  (timer : nat -> float) (xs ys : list string) : forall tick : nat,
  process_files fs timer (xs ++ ys) tick =
  (process_files fs timer xs tick;;
   process_files fs timer ys (tick + 2 * length xs)).
Proof.
  induction xs as [|x xs IH]; intros tick.
  - cbn [app length]. rewrite Nat.mul_0_r, Nat.add_0_r.
    change (process_files fs timer [] tick) with (@mret io _ _ tt).
    now rewrite ret_bind.
  - rewrite <- app_comm_cons, !process_files_cons.
    destruct (fs x) as [reader|]; [|reflexivity].
    rewrite bind_assoc, IH.
    replace (S (S tick) + 2 * length xs)%nat
      with (tick + 2 * length (x :: xs))%nat by (cbn [length]; lia).
    reflexivity.
Qed.

Lemma process_files_ok (fs : string -> option (list (gmap string pyval)))
  (timer : nat -> float) (files : list string) :
  forall (tick : nat) (tr : list event),
  process_files fs timer files tick = (tr, Ok tt) ->
  opened tr = files
  /\ reported tr = map (fun file => (file, spectra_count fs file)) files.
Proof.
  induction files as [|file rest IH]; intros tick tr H.
  - injection H as <-. auto.
  - rewrite process_files_cons in H. cbn [map].
    destruct (fs file) as [reader|] eqn:Hfs; [|discriminate].
    apply bind_ok_inv in H as (tr1 & [] & tr2 & Hread & Hrest & ->).
    apply IH in Hrest as [Ho Hr].
    rewrite opened_app, reported_app, Ho, Hr.
    destruct (read_spectra_cases file reader (timer tick) (timer (S tick)))
      as [(sec & per_sec & _ & _ & Hrun) | [[e Hrun] | [e Hrun]]];
      rewrite Hrun in Hread; [|discriminate..].
    injection Hread as <-.
    assert (spectra_count fs file = Z.of_nat (length reader)) as ->
      by (unfold spectra_count; now rewrite Hfs).
    auto.
Qed.

Lemma first_missing_none (isfile : string -> bool) (files : list string) :
  Forall (fun file => isfile file = true) files ->
  first_missing isfile files = None.
Proof.
  induction 1 as [|file rest Hfile _ IH]; [reflexivity|].
  cbn [first_missing]. now rewrite Hfile.
Qed.

Lemma main_all_files (fs : string -> option (list (gmap string pyval)))
  (timer : nat -> float) (files : list string) :
  Forall (fun file => is_Some (fs file)) files ->
  main fs timer files = process_files fs timer files 0.
Proof.
  intros Hall. unfold main. rewrite first_missing_none; [reflexivity|].
  eapply Forall_impl; [exact Hall|].
  intros file H. now apply bool_decide_eq_true_2.
Qed.

(** X12: a batch that completes reports on each file by itself.  When
    every path of the batch is a file and [main] returns, the files were
    opened one after the other in the order of the command line, and there
    is one summary line for each, in that order, whose count is the number of
    spectra of that file alone: the counters start again with each file. *)
Theorem batch_reports_each_file
  (fs : string -> option (list (gmap string pyval))) (timer : nat -> float)
  (files : list string) (tr : list event) :
  Forall (fun file => is_Some (fs file)) files ->
  main fs timer files = (tr, Ok tt) ->
  opened tr = files
  /\ reported tr = map (fun file => (file, spectra_count fs file)) files.
Proof.
  intros Hall H. rewrite (main_all_files _ _ _ Hall) in H.
  now apply process_files_ok in H.
Qed.

Lemma batch_reports_each_file_witness :
  exists tr,
    main Sample.batch_fs Sample.timer ["a.mzML"; "c.mzML"] = (tr, Ok tt)
    /\ opened tr = ["a.mzML"; "c.mzML"]
    /\ reported tr = [("a.mzML", 2); ("c.mzML", 1)].
Proof.
  eexists. split; [vm_compute; reflexivity|].
  apply (batch_reports_each_file Sample.batch_fs Sample.timer
           ["a.mzML"; "c.mzML"]).
  - repeat constructor; vm_compute; eauto.
  - vm_compute. reflexivity.
Defined.

(** X13: an exception in one file ends the batch.  When every path of
    the batch is a file, the files in front of [file] complete and the
    reading of [file] raises an exception, [main] ends with that exception
    right there: the files after it are never opened, and there is no
    summary for them. *)
Theorem batch_stops_at_exception
  (fs : string -> option (list (gmap string pyval))) (timer : nat -> float)
  (pre post : list string) (file : string)
  (reader : list (gmap string pyval)) (tr_pre tr_file : list event) (e : exn) :
  Forall (fun f => is_Some (fs f)) (pre ++ file :: post) ->
  main fs timer pre = (tr_pre, Ok tt) ->
  fs file = Some reader ->
  read_spectra file reader (timer (2 * length pre)%nat)
    (timer (S (2 * length pre))) = (tr_file, Raise e) ->
  main fs timer (pre ++ file :: post) = (tr_pre ++ tr_file, Raise e)
  /\ opened (tr_pre ++ tr_file) = pre ++ [file]
  /\ reported (tr_pre ++ tr_file)
     = map (fun f => (f, spectra_count fs f)) pre.
Proof.
  intros Hall Hpre Hfs Hread.
  pose proof Hall as Hall'. apply Forall_app in Hall' as [Hallpre _].
  rewrite (main_all_files _ _ _ Hallpre) in Hpre.
  rewrite (main_all_files _ _ _ Hall), process_files_app, Hpre.
  rewrite process_files_cons, Hfs. cbn [Nat.add]. rewrite Hread.
  split; [reflexivity|].
  apply process_files_ok in Hpre as [Ho Hr].
  rewrite opened_app, reported_app, Ho, Hr.
  destruct (read_spectra_cases file reader (timer (2 * length pre)%nat)
              (timer (S (2 * length pre))))
    as [(sec & per_sec & _ & _ & Hrun) | [[e' Hrun] | [e' Hrun]]];
    rewrite Hrun in Hread; [discriminate|..];
    injection Hread as <- <-; cbn [opened reported]; now rewrite app_nil_r.
Qed.

Lemma batch_stops_at_exception_witness :
  main Sample.batch_fs Sample.timer (["a.mzML"] ++ "b.mzML" :: ["c.mzML"])
  = ([Open "a.mzML" false; Close "a.mzML";
      Stdout (Summary 2 "a.mzML" 2 1)]
     ++ [Open "b.mzML" false], Raise (KeyError "precursorList"))
  /\ opened ([Open "a.mzML" false; Close "a.mzML";
              Stdout (Summary 2 "a.mzML" 2 1)] ++ [Open "b.mzML" false])
     = ["a.mzML"] ++ ["b.mzML"]
  /\ reported ([Open "a.mzML" false; Close "a.mzML";
                Stdout (Summary 2 "a.mzML" 2 1)] ++ [Open "b.mzML" false])
     = map (fun f => (f, spectra_count Sample.batch_fs f)) ["a.mzML"].
Proof.
  apply (batch_stops_at_exception Sample.batch_fs Sample.timer
           ["a.mzML"] ["c.mzML"] "b.mzML" [Sample.ms2_without_precursor]).
  - repeat constructor; vm_compute; eauto.
  - vm_compute. reflexivity.
  - reflexivity.
  - vm_compute. reflexivity.
Defined.

End SpectraRuns.
